(** * FinopolyPoker: the three-card poker decision engine

    A shallow embedding of [250103009.py] (the Monte Carlo / expected-value
    bot) and of [player_template.py] (the band-heuristic bot), and the
    properties of the card model, the hand classifier, the outcome simulator,
    the two policies and the I/O glue.

    Conventions of the embedding:
    - a Python [int] is a [Z]; a Python [float] is a binary64 number, here
      Rocq's primitive [float], with the same operations and rounding;
    - [a / b] on two [int]s is the exact quotient rounded once to binary64
      (ties to even), whatever the size of [a] and [b], and OverflowError
      where that is out of range;
    - a [str] is a [string], one character of it an [ascii];
    - a [dict] or [set] is a [gmap] or [gset];
    - a function that can raise returns a [result]: [Ok v] or [Raise e];
    - [random.sample] reads its choices from an explicit random source. *)

From Stdlib Require Import ZArith Lia Uint63 PrimFloat SpecFloat FloatOps FloatAxioms Ascii.
From stdpp Require Import gmap strings list fin_maps sorting.

Set Warnings "-inexact-float".
#[local] Open Scope Z_scope.

(** ** Exceptions and results *)

Inductive exn : Set :=
  | KeyError (key : string)
  | IndexError
  | ValueError
  | ZeroDivisionError
  | OverflowError
  | UnboundLocalError (var : string).

Inductive result (A : Type) : Type :=
  | Ok (a : A)
  | Raise (e : exn).
Arguments Ok {A} a.
Arguments Raise {A} e.

#[global] Instance result_ret : MRet result := λ A a, Ok a.
#[global] Instance result_bind : MBind result := λ A B f m,
  match m with
  | Ok a => f a
  | Raise e => Raise e
  end.

(** [l[i]] on a list and [s[i]] on a string, for an index that is not
    negative. *)
Definition getitem {A} (l : list A) (i : nat) : result A :=
  match l !! i with
  | Some x => Ok x
  | None => Raise IndexError
  end.

Definition str_getitem (s : string) (i : nat) : result ascii :=
  match String.get i s with
  | Some c => Ok c
  | None => Raise IndexError
  end.

(** ** 1. Basic card utilities *)

Definition RANKS : string := "23456789TJQKA".

(** [{r: i + 2 for i, r in enumerate(RANKS)}] *)
Definition RANK_VALUE : gmap ascii Z :=
  list_to_map (imap (λ i r, (r, Z.of_nat i + 2)) (String.list_ascii_of_string RANKS)).

Definition rank_value_getitem (c : ascii) : result Z :=
  match RANK_VALUE !! c with
  | Some v => Ok v
  | None => Raise (KeyError (String c EmptyString))
  end.

Definition parse_card (card_str : string) : result (Z * ascii) :=
  c0 ← str_getitem card_str 0;
  v ← rank_value_getitem c0;
  c1 ← str_getitem card_str 1;
  Ok (v, c1).

(** [sorted] on a list of ints. *)
Definition sorted (l : list Z) : list Z := merge_sort Z.le l.

Definition is_straight_3 (rank_values : list Z) : result (bool * Z) :=
  let r := sorted rank_values in
  r0 ← getitem r 0;
  r1 ← getitem r 1;
  consecutive ←
    (if bool_decide (r0 + 1 = r1)
     then r2 ← getitem r 2; Ok (bool_decide (r1 + 1 = r2))
     else Ok false);
  if (consecutive : bool) then r2 ← getitem r 2; Ok (true, r2)
  else if bool_decide (list_to_set r = ({[ 14; 2; 3 ]} : gset Z)) then Ok (true, 3)
  else Ok (false, 0).

(** ** 2. Hand category evaluation (3 cards) *)

(** The loop [for v in rank_values: counts[v] = counts.get(v, 0) + 1]. *)
Definition count_ranks (rank_values : list Z) : gmap Z Z :=
  foldl (λ counts v, <[ v := default 0 (counts !! v) + 1 ]> counts) ∅ rank_values.

(** [counts.values()] *)
Definition values (counts : gmap Z Z) : list Z := (map_to_list counts).*2.

Definition hand_category (hole : list string) (table : string) : result Z :=
  let cards := hole ++ [table] in
  parsed ← mapM parse_card cards;
  let rank_values := parsed.*1 in
  let suits := parsed.*2 in
  let flush := bool_decide (size (list_to_set suits : gset ascii) = 1%nat) in
  let counts := count_ranks rank_values in
  '(straight, _) ← is_straight_3 rank_values;
  if straight && flush then Ok 5
  else if bool_decide (3 ∈ values counts) then Ok 4
  else if straight then Ok 3
  else if flush then Ok 2
  else if bool_decide (2 ∈ values counts) then Ok 1
  else Ok 0.

(** ** Python numbers *)

(** An [int] as binary data: the mantissa [|z|] at exponent 0, of any
    size, without rounding. *)
Definition spec_of_int (z : Z) : spec_float :=
  match z with
  | Z0 => S754_zero false
  | Zpos p => S754_finite false p 0
  | Zneg p => S754_finite true p 0
  end.

(** The binary64 number nearest to the exact quotient of [a] by [b], ties to
    even; an infinity where it is out of range, a signed zero where it
    underflows or [a] is 0. *)
Definition true_quotient (a b : Z) : spec_float :=
  SFdiv prec emax (spec_of_int a) (spec_of_int b).

Definition float_quotient (a b : Z) : float := SF2Prim (true_quotient a b).

(** [a / b] on two [int]s: true division, a [float]. It raises
    ZeroDivisionError on a zero divisor and OverflowError where the rounded
    quotient is too large for a [float]. *)
Definition int_truediv (a b : Z) : result float :=
  if b =? 0 then Raise ZeroDivisionError
  else match true_quotient a b with
       | S754_infinity _ => Raise OverflowError
       | _ => Ok (float_quotient a b)
       end.

(** ** 4. Monte Carlo simulation *)

Definition SUITS : string := "CDHS".

(** [[r + s for r in RANKS for s in SUITS]] *)
Definition deck : list string :=
  r ← String.list_ascii_of_string RANKS;
  s ← String.list_ascii_of_string SUITS;
  [String r (String s EmptyString)].

(** The random source. The [k]-th call of [sample] reads the pair [rnd k] of
    raw choices: the first picks a position in the population, the second a
    position among the cards that remain. Every pair of cards at two distinct
    positions is the outcome of some choice, and every choice gives one. *)
Definition Rng : Type := nat → nat * nat.

(** [sample(population, 2)] *)
Definition sample2 (choice : nat * nat) (population : list string) : result (list string) :=
  let n := length population in
  if (n <? 2)%nat then Raise ValueError
  else
    let i := (choice.1 mod n)%nat in
    let j := (choice.2 mod (n - 1))%nat in
    x ← getitem population i;
    y ← getitem (delete i population) j;
    Ok [x; y].

(** One round of the loop body, on the counters [(wins, ties)]. *)
Definition trial (my_category : Z) (available_deck : list string) (table : string)
    (choice : nat * nat) (acc : Z * Z) : result (Z * Z) :=
  let '(wins, ties) := acc in
  opp_hole ← sample2 choice available_deck;
  opp_category ← hand_category opp_hole table;
  if bool_decide (my_category > opp_category) then Ok (wins + 1, ties)
  else if bool_decide (my_category = opp_category) then Ok (wins, ties + 1)
  else Ok (wins, ties).

(** [for _ in range(n_simulations): ...], over the indices of the range. *)
Fixpoint run_trials (rnd : Rng) (my_category : Z) (available_deck : list string)
    (table : string) (range : list nat) (acc : Z * Z) : result (Z * Z) :=
  match range with
  | [] => Ok acc
  | k :: range' =>
      acc' ← trial my_category available_deck table (rnd k) acc;
      run_trials rnd my_category available_deck table range' acc'
  end.

Definition available (hole : list string) (table : string) : list string :=
  let known_cards := hole ++ [table] in
  filter (λ card, card ∉ known_cards) deck.

(** The counters [(wins, ties)] at the end of the loop. *)
Definition simulate (rnd : Rng) (hole : list string) (table : string)
    (n_simulations : Z) : result (Z * Z) :=
  my_category ← hand_category hole table;
  run_trials rnd my_category (available hole table) table
    (seq 0 (Z.to_nat n_simulations)) (0, 0).

Definition monte_carlo_sim (rnd : Rng) (hole : list string) (table : string)
    (n_simulations : Z) : result (float * float * float) :=
  '(wins, ties) ← simulate rnd hole table n_simulations;
  prob_win ← int_truediv wins n_simulations;
  prob_tie ← int_truediv ties n_simulations;
  let prob_lose := (1 - prob_win - prob_tie)%float in
  Ok (prob_win, prob_lose, prob_tie).

(** ** The round state *)

(** The JSON object read from stdin, as a dict with the five keys the bots
    look at; a key that is absent is [None], and so is an [opponent_stats]
    that is [null]. *)
Record State : Type := {
  your_hole : option (list string);
  table_card : option string;
  opponent_stats : option (gmap string Z);
  round : option Z;
  rules : option string;
}.

Definition dict_getitem {A} (key : string) (v : option A) : result A :=
  match v with
  | Some x => Ok x
  | None => Raise (KeyError key)
  end.

Definition stats_getitem (opp : gmap string Z) (key : string) : result Z :=
  dict_getitem key (opp !! key).

(** [state.get("opponent_stats") or {"fold": 0, "call": 0, "raise": 0}]:
    a missing, null or empty dict gives the default. *)
Definition opp_of_state (state : State) : gmap string Z :=
  let zero : gmap string Z := <[ "fold" := 0 ]> (<[ "call" := 0 ]> (<[ "raise" := 0 ]> ∅)) in
  match opponent_stats state with
  | Some d => if decide (d = ∅) then zero else d
  | None => zero
  end.

(** Reading a local variable that may not have been assigned. *)
Definition load_local {A} (var : string) (v : option A) : result A :=
  match v with
  | Some x => Ok x
  | None => Raise (UnboundLocalError var)
  end.

(** ** 6. I/O glue, the same in both files *)

Record Output : Type := { action : string }.

Definition empty_state : State :=
  {| your_hole := None; table_card := None; opponent_stats := None;
     round := None; rules := None |}.

(** [action not in {"FOLD", "CALL", "RAISE"}] *)
Definition valid_labels : gset string := {[ "FOLD"; "CALL"; "RAISE" ]}.

Section IOGlue.
(** [str.strip] and [json.loads] are library code; [json_loads] gives
    [None] where the library raises. *)
Variable strip : string → string.
Variable json_loads : string → option State.
(** The strategy function the glue calls. *)
Variable decide_action : State → result string.

(** The state [main] hands to the strategy: [{}] for no input and for
    input that does not parse. *)
Definition read_state (stdin : string) : State :=
  let raw := strip stdin in
  if bool_decide (raw = EmptyString) then empty_state
  else match json_loads raw with
       | Some state => state
       | None => empty_state
       end.

(** [main]: from the text on stdin to the object written to stdout. *)
Definition main (stdin : string) : result Output :=
  let state := read_state stdin in
  action ← decide_action state;
  let action := if bool_decide (action ∉ valid_labels) then "CALL" else action in
  Ok {| action := action |}.
End IOGlue.

(** ** 250103009.py: the expected-value bot *)

Module Bot.

(** The decision tree at the end of [decide_action], on the values it has
    computed by then. *)
Definition policy (category : Z)
    (prob_win ev_fold ev_call ev_raise opp_fold_rate opp_raise_rate : float) : string :=
  if bool_decide (category >= 4) then
    if (ev_call <=? ev_raise)%float || (0.85 <? prob_win)%float then "RAISE"
    else "CALL"
  else if bool_decide (category = 3) then
    if ((if (ev_call <? ev_fold)%float then ev_fold else ev_call) <=? ev_raise)%float
    then "RAISE"
    else if (ev_fold <? ev_call)%float then "CALL"
    else "FOLD"
  else if bool_decide (category = 2) then
    if (0.6 <? prob_win)%float && (ev_call <? ev_raise)%float then "RAISE"
    else if (0.45 <? prob_win)%float || (0 <? ev_call)%float then "CALL"
    else "FOLD"
  else if bool_decide (category = 1) then
    if (0.5 <? opp_raise_rate)%float && (prob_win <? 0.5)%float then
      if (0 <? ev_call)%float then "CALL" else "FOLD"
    else if (0.55 <? prob_win)%float
            || ((0.5 <? ev_call)%float && (0.4 <? opp_fold_rate)%float) then "CALL"
    else if (ev_call <=? ev_fold)%float then "FOLD"
    else "CALL"
  else if bool_decide (category = 0) then
    if (0.6 <? prob_win)%float && (0.4 <? opp_fold_rate)%float then "CALL"
    else if (0.3 <? ev_call)%float then "CALL"
    else "FOLD"
  else "CALL".

(** The opponent rates: [(opp_fold_rate, opp_raise_rate, opp_call_rate)].
    [opp_call_rate] is assigned in the [else] branch only. *)
Definition opp_rates (opp : gmap string Z) : result (float * float * option float) :=
  fold ← stats_getitem opp "fold";
  call ← stats_getitem opp "call";
  raise ← stats_getitem opp "raise";
  let total_opp_actions := fold + call + raise in
  if bool_decide (total_opp_actions = 0) then
    Ok (0.33, 0.33, None)%float
  else
    opp_fold_rate ← int_truediv fold total_opp_actions;
    opp_raise_rate ← int_truediv raise total_opp_actions;
    let opp_call_rate := (1 - opp_fold_rate - opp_raise_rate)%float in
    Ok (opp_fold_rate, opp_raise_rate, Some opp_call_rate).

Definition decide_action (rnd : Rng) (state : State) : result string :=
  hole ← dict_getitem "your_hole" (your_hole state);
  table ← dict_getitem "table_card" (table_card state);
  let opp := opp_of_state state in
  let round_number := default 1 (round state) in
  '(opp_fold_rate, opp_raise_rate, opp_call_rate) ← opp_rates opp;
  category ← hand_category hole table;
  '(prob_win, prob_tie, prob_lose) ← monte_carlo_sim rnd hole table 10000;
  let ev_fold := (-1)%float in
  ev_call ←
    (call_rate ← load_local "opp_call_rate" opp_call_rate;
     Ok (opp_fold_rate * 2
         + call_rate * (prob_win * 2 + prob_lose * (-2))
         + opp_raise_rate * (prob_win * 2 + prob_lose * (-3)))%float);
  ev_raise ←
    (call_rate ← load_local "opp_call_rate" opp_call_rate;
     Ok (opp_fold_rate * 3
         + call_rate * (prob_win * 3 + prob_lose * (-2))
         + opp_raise_rate * (prob_win * 3 + prob_lose * (-3)))%float);
  Ok (policy category prob_win ev_fold ev_call ev_raise opp_fold_rate opp_raise_rate).

End Bot.

(** ** player_template.py: the band-heuristic bot *)

Module Template.

Definition opp_rates (opp : gmap string Z) : result (float * float) :=
  fold ← stats_getitem opp "fold";
  call ← stats_getitem opp "call";
  raise ← stats_getitem opp "raise";
  let total_opp_actions := fold + call + raise in
  if bool_decide (total_opp_actions = 0) then
    Ok (0, 0)%float
  else
    opp_fold_rate ← int_truediv fold total_opp_actions;
    opp_raise_rate ← int_truediv raise total_opp_actions;
    Ok (opp_fold_rate, opp_raise_rate).

Definition HIGH_RAISE_RATE : float := 0.60%float.
Definition HIGH_FOLD_RATE : float := 0.50%float.

Definition decide_action (state : State) : result string :=
  hole ← dict_getitem "your_hole" (your_hole state);
  table ← dict_getitem "table_card" (table_card state);
  let opp := opp_of_state state in
  let round_number := default 1 (round state) in
  category ← hand_category hole table;
  '(opp_fold_rate, opp_raise_rate) ← opp_rates opp;
  let is_weak := bool_decide (category = 0) in
  let is_medium := bool_decide (category = 1) || bool_decide (category = 2) in
  let is_strong := bool_decide (category >= 3) in
  if is_strong then Ok "RAISE"
  else if is_medium then
    if (HIGH_RAISE_RATE <? opp_raise_rate)%float then Ok "CALL"
    else if (HIGH_FOLD_RATE <? opp_fold_rate)%float then Ok "RAISE"
    else Ok "CALL"
  else if is_weak then
    if (HIGH_RAISE_RATE <? opp_raise_rate)%float then Ok "FOLD"
    else Ok "CALL"
  else Ok "CALL".

End Template.

(** * Specification-side definitions

    What the statements below are written with: the valid inputs, the
    category as the specification words it, binary64 data, and the
    concrete inputs of the examples. *)

(** A card token: a rank symbol followed by a suit symbol. *)
Definition valid_card (c : string) : Prop :=
  ∃ r s, r ∈ String.list_ascii_of_string RANKS
       ∧ s ∈ String.list_ascii_of_string SUITS
       ∧ c = String r (String s EmptyString).

(** The values a rank symbol stands for. *)
Definition is_rank (v : Z) : Prop := 2 ≤ v ≤ 14.

(** What [parse_card] gives on a card that parses; a placeholder otherwise. *)
Definition parsed_of (c : string) : Z * ascii :=
  match parse_card c with
  | Ok p => p
  | Raise _ => (0, "000"%char)
  end.

Definition parses_to_rank (c : string) : bool :=
  match parse_card c with
  | Ok (v, _) => bool_decide (is_rank v)
  | Raise _ => false
  end.

(** What [hand_category] does once its cards are parsed. *)
Definition classify (parsed : list (Z * ascii)) : result Z :=
  let rank_values := parsed.*1 in
  let suits := parsed.*2 in
  let flush := bool_decide (size (list_to_set suits : gset ascii) = 1%nat) in
  let counts := count_ranks rank_values in
  '(straight, _) ← is_straight_3 rank_values;
  if straight && flush then Ok 5
  else if bool_decide (3 ∈ values counts) then Ok 4
  else if straight then Ok 3
  else if flush then Ok 2
  else if bool_decide (2 ∈ values counts) then Ok 1
  else Ok 0.

(** How many times [v] occurs in [l]. *)
Fixpoint occ (v : Z) (l : list Z) : Z :=
  match l with
  | [] => 0
  | x :: l' => (if decide (v = x) then 1 else 0) + occ v l'
  end.

(** All three suits identical. *)
Definition spec_flush (s1 s2 s3 : ascii) : bool := bool_decide (s1 = s2 ∧ s2 = s3).

(** The ranks in ascending order are consecutive, or the multiset of the
    ranks is {14, 2, 3}. *)
Definition spec_straight (a b c : Z) : bool :=
  let r0 := Z.min a (Z.min b c) in
  let r2 := Z.max a (Z.max b c) in
  let r1 := a + b + c - r0 - r2 in
  bool_decide (r0 + 1 = r1 ∧ r1 + 1 = r2) || bool_decide ([a; b; c] ≡ₚ [14; 2; 3]).

(** Some rank appears [n] times. *)
Definition spec_appears (n : Z) (ranks : list Z) : bool :=
  bool_decide (Exists (λ r, occ r ranks = n) ranks).

(** First match wins: straight and flush, three of a rank, straight, flush,
    two of a rank, else high card. *)
Definition spec_category (p1 p2 p3 : Z * ascii) : Z :=
  let ranks := [p1.1; p2.1; p3.1] in
  let straight := spec_straight p1.1 p2.1 p3.1 in
  let flush := spec_flush p1.2 p2.2 p3.2 in
  if straight && flush then 5
  else if spec_appears 3 ranks then 4
  else if straight then 3
  else if flush then 2
  else if spec_appears 2 ranks then 1
  else 0.

(** A choice that makes [sample] draw the cards [x] and [y], in this order. *)
Definition choice_for (population : list string) (x y : string) : nat * nat :=
  match list_find (λ c, c = x) population with
  | Some (i, _) =>
      match list_find (λ c, c = y) (delete i population) with
      | Some (j, _) => (i, j)
      | None => (i, 0%nat)
      end
  | None => (0%nat, 0%nat)
  end.

(** Binary64 data, for the bounds on the quotients. The value that
    [binary_round_aux] is given, mantissa [mx] at exponent [ex] with what was
    cut off at [lx], is at most one. *)
Definition at_most_one (mx ex : Z) (lx : location) : Prop :=
  ex <= 0 /\ (mx < 2 ^ (- ex) \/ (mx = 2 ^ (- ex) /\ lx = loc_Exact)).

(** What [binary_round_aux] makes of its last mantissa and exponent. *)
Definition round_result (sx : bool) (m e : Z) : spec_float :=
  match m with
  | Z0 => S754_zero sx
  | Zpos p => if e <=? emax - prec then S754_finite sx p e else S754_infinity sx
  | Zneg _ => S754_nan
  end.

(** A binary64 number of sign [s] and magnitude at most one. *)
Definition signed_unit (s : bool) (x : spec_float) : Prop :=
  x = S754_zero s \/
  exists m e, x = S754_finite s m e /\ bounded prec emax m e = true
    /\ e <= 0 /\ Zpos m <= 2 ^ (- e).

(** The number 1: [2^52] at exponent [-52]. *)
Definition SF_one : spec_float := S754_finite false 4503599627370496 (-52).

(** Random sources for the examples. Against the hand A♠ K♠ with Q♠ on the
    table (a straight flush), the opponent draw T♠ J♠ ties (a straight flush
    too) and the opponent draw 2♣ 3♦ is beaten (a high card). *)
Definition rnd_tie_then_wins : Rng := λ k,
  let pool := available ["AS"; "KS"] "QS" in
  if decide (k = 0)%nat then choice_for pool "TS" "JS" else choice_for pool "2C" "3D".

Definition rnd_ties : Rng := λ _,
  choice_for (available ["AS"; "KS"] "QS") "TS" "JS".

(** Against the hand 9♣ 9♦ with 2♥ on the table (a pair): three opponent
    draws 3♣ 7♦ (a high card, beaten), then four draws 2♣ 5♦ (a pair, a tie),
    then draws 3♥ 7♥ (a flush, which wins). *)
Definition rnd_3_wins_4_ties : Rng := λ k,
  let pool := available ["9C"; "9D"] "2H" in
  if decide (k < 3)%nat then choice_for pool "3C" "7D"
  else if decide (k < 7)%nat then choice_for pool "2C" "5D"
  else choice_for pool "3H" "7H".

(** The opponent statistics of a well-formed state: three counts, none
    negative. *)
Definition well_formed_stats (d : gmap string Z) : Prop :=
  ∃ fold call raise,
    d !! "fold" = Some fold ∧ d !! "call" = Some call ∧ d !! "raise" = Some raise
    ∧ 0 ≤ fold ∧ 0 ≤ call ∧ 0 ≤ raise.

(** A well-formed round state: two valid hole cards, a valid table card,
    statistics that are absent or well-formed, a round that is absent or at
    least 1, and any rules. *)
Definition well_formed (state : State) : Prop :=
  (∃ c1 c2, your_hole state = Some [c1; c2] ∧ valid_card c1 ∧ valid_card c2)
  ∧ (∃ t, table_card state = Some t ∧ valid_card t)
  ∧ (∀ d, opponent_stats state = Some d → well_formed_stats d)
  ∧ (∀ n, round state = Some n → 1 ≤ n).

(** The number of opponent actions the state records. *)
Definition total_opp_actions (state : State) : option Z :=
  let opp := opp_of_state state in
  fold ← opp !! "fold";
  call ← opp !! "call";
  raise ← opp !! "raise";
  Some (fold + call + raise).

(** The first end-to-end example of the specification: A♠ K♠ with Q♠ on the
    table, no opponent action observed, round 1. *)
Definition state_straight_flush_no_stats : State :=
  {| your_hole := Some ["AS"; "KS"];
     table_card := Some "QS";
     opponent_stats := Some (<[ "fold" := 0 ]> (<[ "call" := 0 ]> (<[ "raise" := 0 ]> ∅)));
     round := Some 1;
     rules := None |}.

Definition state_straight_flush_one_fold : State :=
  {| your_hole := Some ["AS"; "KS"];
     table_card := Some "QS";
     opponent_stats := Some (<[ "fold" := 1 ]> (<[ "call" := 0 ]> (<[ "raise" := 0 ]> ∅)));
     round := Some 2;
     rules := None |}.

Definition state_straight_flush_round_400 : State :=
  {| your_hole := Some ["AS"; "KS"];
     table_card := Some "QS";
     opponent_stats := Some (<[ "fold" := 1 ]> (<[ "call" := 0 ]> (<[ "raise" := 0 ]> ∅)));
     round := Some 400;
     rules := Some "three-card showdown" |}.

Definition state_pair_aggressive_opponent : State :=
  {| your_hole := Some ["9C"; "9D"];
     table_card := Some "2H";
     opponent_stats := Some (<[ "fold" := 0 ]> (<[ "call" := 1 ]> (<[ "raise" := 9 ]> ∅)));
     round := Some 11;
     rules := None |}.

Definition state_high_card_aggressive_opponent : State :=
  {| your_hole := Some ["2C"; "5D"];
     table_card := Some "9H";
     opponent_stats := Some (<[ "fold" := 0 ]> (<[ "call" := 1 ]> (<[ "raise" := 9 ]> ∅)));
     round := Some 11;
     rules := None |}.

(** Inputs of the further examples, and a name for the exceptions of
    reading a card. *)

(** Fifty hole cards: the deck but its last two cards, A♥ and A♠. *)
Definition hole_of_fifty : list string := take 50 deck.

(** A high card, 2♣ 5♦ with 9♥ on the table, and no field but the cards. *)
Definition state_high_card_no_stats : State :=
  {| your_hole := Some ["2C"; "5D"];
     table_card := Some "9H";
     opponent_stats := None;
     round := None;
     rules := None |}.

(** IndexError or KeyError: what reading a card can raise. *)
Definition card_error (e : exn) : Prop := e = IndexError ∨ ∃ key, e = KeyError key.

(** The state of the specification's last example: a hole card with the
    rank symbol 1. *)
Definition state_unknown_rank : State :=
  {| your_hole := Some ["1S"; "KS"];
     table_card := Some "QS";
     opponent_stats := None;
     round := Some 1;
     rules := None |}.

(** A state without hole cards, and one with fifty of them and an observed
    opponent action. *)
Definition state_no_hole_card : State :=
  {| your_hole := Some [];
     table_card := Some "QS";
     opponent_stats := None;
     round := Some 1;
     rules := None |}.

Definition state_fifty_hole_cards : State :=
  {| your_hole := Some hole_of_fifty;
     table_card := Some "AH";
     opponent_stats := Some (<[ "fold" := 1 ]> (<[ "call" := 0 ]> (<[ "raise" := 0 ]> ∅)));
     round := Some 1;
     rules := None |}.

(** A state whose opponent counts are not counts: they sum to 1, and the
    fold count is [10^400]. *)
Definition state_huge_fold_count : State :=
  {| your_hole := Some ["AS"; "KS"];
     table_card := Some "QS";
     opponent_stats :=
       Some (<[ "fold" := 10 ^ 400 ]> (<[ "call" := 1 - 10 ^ 400 ]> (<[ "raise" := 0 ]> ∅)));
     round := Some 1;
     rules := None |}.

(** * Properties *)

(** ** Binary64 quotients

    [SFdiv] and [SFsub] are the library's specification of the primitive
    division and subtraction. What follows bounds their results on the
    quotients the program forms: a count divided by a total that is at least
    as large. *)

Lemma fexp_eq x : fexp prec emax x = Z.max (x - 53) (-1074).
Proof. reflexivity. Qed.

Lemma digits2_pos_bounds p :
  2 ^ (Zpos (digits2_pos p) - 1) <= Zpos p < 2 ^ Zpos (digits2_pos p).
Proof.
  induction p as [p IH|p IH|]; cbn [digits2_pos].
  - rewrite Pos2Z.inj_succ.
    replace (Z.succ (Z.pos (digits2_pos p)) - 1) with (Z.succ (Z.pos (digits2_pos p) - 1)) by lia.
    rewrite !Z.pow_succ_r by lia. lia.
  - rewrite Pos2Z.inj_succ.
    replace (Z.succ (Z.pos (digits2_pos p)) - 1) with (Z.succ (Z.pos (digits2_pos p) - 1)) by lia.
    rewrite !Z.pow_succ_r by lia. lia.
  - cbn. lia.
Qed.

Lemma Zdigits2_bounds m :
  0 < m -> 0 < Zdigits2 m /\ 2 ^ (Zdigits2 m - 1) <= m < 2 ^ Zdigits2 m.
Proof.
  destruct m as [|p|p]; try lia. intros _. cbn [Zdigits2].
  split; [lia | apply digits2_pos_bounds].
Qed.

Lemma Zdigits2_nonneg m : 0 <= Zdigits2 m.
Proof. destruct m; cbn; lia. Qed.

Lemma Zdigits2_le m n : 0 <= m -> 0 <= n -> m < 2 ^ n -> Zdigits2 m <= n.
Proof.
  intros Hm Hn Hlt. destruct (Z.eq_dec m 0) as [->|Hne]; [cbn; lia|].
  destruct (Zdigits2_bounds m) as (Hd & Hlo & _); [lia|].
  destruct (Z_le_gt_dec (Zdigits2 m) n) as [|Hgt]; [assumption|].
  assert (2 ^ n <= 2 ^ (Zdigits2 m - 1)) by (apply Z.pow_le_mono_r; lia). lia.
Qed.

Lemma Zdigits2_ge m n : 0 < n -> 2 ^ (n - 1) <= m -> n <= Zdigits2 m.
Proof.
  intros Hn Hle.
  assert (0 < 2 ^ (n - 1)) by (apply Z.pow_pos_nonneg; lia).
  destruct (Zdigits2_bounds m) as (Hd & _ & Hhi); [lia|].
  destruct (Z_le_gt_dec n (Zdigits2 m)) as [|Hgt]; [assumption|].
  assert (2 ^ Zdigits2 m <= 2 ^ (n - 1)) by (apply Z.pow_le_mono_r; lia). lia.
Qed.

Lemma div_pow2_lt m k b : 0 <= m -> 0 <= k <= b -> m < 2 ^ b -> m / 2 ^ k < 2 ^ (b - k).
Proof.
  intros Hm Hk Hlt. apply Z.div_lt_upper_bound; [apply Z.pow_pos_nonneg; lia|].
  rewrite <- Z.pow_add_r by lia. replace (k + (b - k)) with b by lia. exact Hlt.
Qed.

Lemma div_pow2_ge m k a : 0 <= k <= a -> 2 ^ a <= m -> 2 ^ (a - k) <= m / 2 ^ k.
Proof.
  intros Hk Hle. apply Z.div_le_lower_bound; [apply Z.pow_pos_nonneg; lia|].
  rewrite <- Z.pow_add_r by lia. replace (k + (a - k)) with a by lia. exact Hle.
Qed.

Lemma div_pow2_exact k a : 0 <= k <= a -> 2 ^ a / 2 ^ k = 2 ^ (a - k).
Proof. intros Hk. symmetry. apply Z.pow_sub_r; lia. Qed.

Lemma shr_1_m mrs : 0 <= shr_m mrs -> shr_m (shr_1 mrs) = shr_m mrs / 2.
Proof.
  destruct mrs as [m r s]. cbn [shr_m]. intros Hm.
  destruct m as [|[p|p|]|p]; cbn [shr_1 shr_m]; try lia; try reflexivity.
  - apply Z.div_unique with 1; lia.
  - apply Z.div_unique with 0; lia.
Qed.

Lemma shr_1_flags mrs :
  0 <= shr_m mrs ->
  shr_r (shr_1 mrs) = Z.odd (shr_m mrs) /\ shr_s (shr_1 mrs) = (shr_r mrs || shr_s mrs)%bool.
Proof.
  destruct mrs as [m r s]. cbn [shr_m shr_r shr_s]. intros Hm.
  destruct m as [|[p|p|]|p]; cbn; try lia; auto.
Qed.

Lemma iter_pos_nat {A} (f : A -> A) p x : SpecFloat.iter_pos f p x = Nat.iter (Pos.to_nat p) f x.
Proof.
  revert x. induction p as [p IH|p IH|]; intros x; cbn [SpecFloat.iter_pos].
  - rewrite !IH, Pos2Nat.inj_xI.
    replace (S (2 * Pos.to_nat p))%nat with (Pos.to_nat p + (Pos.to_nat p + 1))%nat by lia.
    now rewrite !Nat.iter_add.
  - rewrite !IH, Pos2Nat.inj_xO.
    replace (2 * Pos.to_nat p)%nat with (Pos.to_nat p + Pos.to_nat p)%nat by lia.
    now rewrite Nat.iter_add.
  - reflexivity.
Qed.

Lemma shr_iter_m n mrs :
  0 <= shr_m mrs ->
  shr_m (Nat.iter n shr_1 mrs) = shr_m mrs / 2 ^ Z.of_nat n.
Proof.
  intros Hm. induction n as [|n IH].
  - cbn. now rewrite Z.div_1_r.
  - rewrite Nat.iter_succ. rewrite shr_1_m; rewrite IH.
    + rewrite Nat2Z.inj_succ, Z.pow_succ_r by lia.
      rewrite Z.div_div by (try apply Z.pow_pos_nonneg; lia).
      f_equal. lia.
    + apply Z.div_pos; [lia | apply Z.pow_pos_nonneg; lia].
Qed.

Lemma shr_iter_exact n mrs :
  0 <= shr_m mrs -> shr_r mrs = false -> shr_s mrs = false ->
  shr_m mrs mod 2 ^ Z.of_nat n = 0 ->
  shr_r (Nat.iter n shr_1 mrs) = false /\ shr_s (Nat.iter n shr_1 mrs) = false.
Proof.
  intros Hm Hr Hs. induction n as [|n IH]; intros Hmod; [now split|].
  assert (Hpos : 0 < 2 ^ Z.of_nat n) by (apply Z.pow_pos_nonneg; lia).
  rewrite Nat2Z.inj_succ, Z.pow_succ_r in Hmod by lia.
  apply Z.mod_divide in Hmod; [|lia]. destruct Hmod as [q Hq].
  assert (Hmod' : shr_m mrs mod 2 ^ Z.of_nat n = 0).
  { apply Z.mod_divide; [lia|]. exists (q * 2). lia. }
  destruct (IH Hmod') as [Hr' Hs'].
  rewrite Nat.iter_succ.
  destruct (shr_1_flags (Nat.iter n shr_1 mrs)) as [-> ->].
  { rewrite shr_iter_m by assumption. apply Z.div_pos; lia. }
  rewrite Hr', Hs', shr_iter_m by assumption. split; [|reflexivity].
  replace (shr_m mrs) with (2 * q * 2 ^ Z.of_nat n) by lia.
  rewrite Z.div_mul by lia. rewrite Z.odd_mul. reflexivity.
Qed.

Lemma shr_spec mrs e n :
  0 <= shr_m mrs ->
  exists mrs', shr mrs e n = (mrs', e + Z.max 0 n)
    /\ shr_m mrs' = shr_m mrs / 2 ^ Z.max 0 n
    /\ (shr_r mrs = false -> shr_s mrs = false -> shr_m mrs mod 2 ^ Z.max 0 n = 0 ->
        loc_of_shr_record mrs' = loc_Exact).
Proof.
  intros Hm. destruct n as [|p|p]; cbn [shr].
  - exists mrs. rewrite Z.max_l, Z.add_0_r, Z.div_1_r by lia.
    repeat split. intros Hr Hs _. destruct mrs as [m r s]. cbn in Hr, Hs. now subst.
  - exists (SpecFloat.iter_pos shr_1 p mrs). rewrite Z.max_r by lia.
    rewrite iter_pos_nat, <- (positive_nat_Z p).
    split; [reflexivity|]. split; [now apply shr_iter_m|].
    intros Hr Hs Hmod. destruct (shr_iter_exact (Pos.to_nat p) mrs Hm Hr Hs Hmod) as [Hr' Hs'].
    destruct (Nat.iter _ _ _) as [m' r' s']. cbn in Hr', Hs'. now subst.
  - exists mrs. rewrite Z.max_l, Z.add_0_r, Z.div_1_r by lia.
    repeat split. intros Hr Hs _. destruct mrs as [m r s]. cbn in Hr, Hs. now subst.
Qed.

Lemma shr_fexp_spec m e l :
  0 <= m ->
  exists mrs', shr_fexp prec emax m e l = (mrs', e + Z.max 0 (fexp prec emax (Zdigits2 m + e) - e))
    /\ shr_m mrs' = m / 2 ^ Z.max 0 (fexp prec emax (Zdigits2 m + e) - e)
    /\ (l = loc_Exact -> m mod 2 ^ Z.max 0 (fexp prec emax (Zdigits2 m + e) - e) = 0 ->
        loc_of_shr_record mrs' = loc_Exact).
Proof.
  intros Hm. unfold shr_fexp.
  destruct (shr_spec (shr_record_of_loc m l) e (fexp prec emax (Zdigits2 m + e) - e))
    as (mrs' & Heq & Hm' & Hex).
  { destruct l as [|[]]; exact Hm. }
  exists mrs'. split; [exact Heq|]. split.
  { rewrite Hm'. destruct l as [|[]]; reflexivity. }
  intros -> Hmod. apply Hex; try reflexivity. exact Hmod.
Qed.

Lemma round_nearest_even_bounds m l :
  m <= round_nearest_even m l <= m + 1.
Proof.
  unfold round_nearest_even.
  destruct l as [|[]]; try destruct (Z.even m); lia.
Qed.

Lemma pow2_pos n : 0 <= n -> 0 < 2 ^ n.
Proof. intros Hn. apply Z.pow_pos_nonneg; lia. Qed.

Lemma at_most_one_digits mx ex lx :
  0 <= mx -> at_most_one mx ex lx -> Zdigits2 mx + ex <= 1.
Proof.
  intros Hmx [Hex Hle].
  assert (Hp := pow2_pos (- ex) ltac:(lia)).
  assert (Zdigits2 mx <= - ex + 1); [|lia].
  apply Zdigits2_le; [lia|lia|].
  replace (- ex + 1) with (Z.succ (- ex)) by lia.
  rewrite Z.pow_succ_r by lia. lia.
Qed.

(** The second alignment of [binary_round_aux]: a mantissa that is canonical
    or has just carried into the next binade is shifted by at most one bit. *)
Lemma realign m1 e1 :
  (2 ^ 52 <= m1 <= 2 ^ 53 /\ -1074 <= e1) \/ (0 <= m1 <= 2 ^ 52 /\ e1 = -1074) ->
  exists k, 0 <= k <= 1
    /\ Z.max 0 (fexp prec emax (Zdigits2 m1 + e1) - e1) = k
    /\ (0 < m1 / 2 ^ k -> fexp prec emax (Zdigits2 (m1 / 2 ^ k) + (e1 + k)) = e1 + k).
Proof.
  intros [[Hm He]|[Hm ->]].
  - destruct (Z.eq_dec m1 (2 ^ 53)) as [->|Hne].
    + exists 1. change (Zdigits2 (2 ^ 53)) with 54.
      change (2 ^ 53 / 2 ^ 1) with (2 ^ 52). change (Zdigits2 (2 ^ 52)) with 53.
      rewrite !fexp_eq. lia.
    + exists 0. assert (Hd : Zdigits2 m1 = 53).
      { apply Z.le_antisymm; [apply Zdigits2_le; lia | apply Zdigits2_ge; [lia|exact (proj1 Hm)]]. }
      rewrite Z.pow_0_r, Z.div_1_r, Z.add_0_r, Hd, !fexp_eq. lia.
  - exists 0. assert (Hd : Zdigits2 m1 <= 53) by (apply Zdigits2_le; lia).
    assert (Hd' := Zdigits2_nonneg m1).
    rewrite Z.pow_0_r, Z.div_1_r, Z.add_0_r, !fexp_eq. lia.
Qed.

Lemma binary_round_aux_spec sx mx ex lx :
  0 <= mx -> ex <= fexp prec emax (Zdigits2 mx + ex) ->
  exists m e, 0 <= m
    /\ binary_round_aux prec emax sx mx ex lx = round_result sx m e
    /\ (0 < m -> fexp prec emax (Zdigits2 m + e) = e)
    /\ (at_most_one mx ex lx -> e <= 0 /\ m <= 2 ^ (- e)).
Proof.
  intros Hmx Hex.
  destruct (shr_fexp_spec mx ex lx Hmx) as (mrs1 & E1 & Hm1 & Hloc1).
  remember (fexp prec emax (Zdigits2 mx + ex)) as e1 eqn:He1.
  rewrite Z.max_r in E1, Hm1, Hloc1 by lia.
  replace (ex + (e1 - ex)) with e1 in E1 by lia.
  remember (round_nearest_even (shr_m mrs1) (loc_of_shr_record mrs1)) as m1 eqn:Hm1def.
  assert (Hk1 := pow2_pos (e1 - ex) ltac:(lia)).
  assert (Hm'0 : 0 <= shr_m mrs1) by (rewrite Hm1; apply Z.div_pos; lia).
  assert (Hrnd := round_nearest_even_bounds (shr_m mrs1) (loc_of_shr_record mrs1)).
  rewrite <- Hm1def in Hrnd.
  assert (Hd0 := Zdigits2_nonneg mx).
  assert (Hshape : (2 ^ 52 <= m1 <= 2 ^ 53 /\ -1074 <= e1) \/ (0 <= m1 <= 2 ^ 52 /\ e1 = -1074)).
  { rewrite fexp_eq in He1.
    destruct (Z_le_gt_dec (-1074) (Zdigits2 mx + ex - 53)) as [Hn|Hs].
    - left. assert (He1' : e1 = Zdigits2 mx + ex - 53) by lia.
      assert (Hpos : 0 < mx).
      { destruct (Z.eq_dec mx 0) as [->|]; [cbn in *; lia|lia]. }
      destruct (Zdigits2_bounds mx Hpos) as (_ & Hlo & Hhi).
      assert (2 ^ 52 <= shr_m mrs1 < 2 ^ 53); [|lia].
      rewrite Hm1. replace (e1 - ex) with (Zdigits2 mx - 53) by lia. split.
      + assert (H := div_pow2_ge mx (Zdigits2 mx - 53) (Zdigits2 mx - 1) ltac:(lia) Hlo).
        replace (Zdigits2 mx - 1 - (Zdigits2 mx - 53)) with 52 in H by lia. exact H.
      + assert (H := div_pow2_lt mx (Zdigits2 mx - 53) (Zdigits2 mx) Hmx ltac:(lia) Hhi).
        replace (Zdigits2 mx - (Zdigits2 mx - 53)) with 53 in H by lia. exact H.
    - right. assert (He1' : e1 = -1074) by lia. split; [|exact He1'].
      assert (shr_m mrs1 < 2 ^ 52); [|lia].
      rewrite Hm1.
      assert (H := div_pow2_lt mx (e1 - ex) (e1 - ex + 52) Hmx ltac:(lia)).
      replace (e1 - ex + 52 - (e1 - ex)) with 52 in H by lia. apply H.
      destruct (Z.eq_dec mx 0) as [->|Hne]; [apply pow2_pos; lia|].
      destruct (Zdigits2_bounds mx ltac:(lia)) as (_ & _ & Hhi).
      assert (2 ^ Zdigits2 mx <= 2 ^ (e1 - ex + 52)) by (apply Z.pow_le_mono_r; lia). lia. }
  assert (Hm1pos : 0 <= m1) by lia.
  destruct (shr_fexp_spec m1 e1 loc_Exact Hm1pos) as (mrs2 & E2 & Hm2 & _).
  destruct (realign m1 e1 Hshape) as (k & Hk & Hkeq & Hcanon).
  rewrite Hkeq in E2, Hm2.
  assert (Hk2 := pow2_pos k ltac:(lia)).
  exists (shr_m mrs2), (e1 + k). split; [rewrite Hm2; apply Z.div_pos; lia|].
  split.
  { unfold binary_round_aux. rewrite E1, <- Hm1def, E2. reflexivity. }
  split; [rewrite Hm2; exact Hcanon|].
  intros Hone. assert (Hdig := at_most_one_digits mx ex lx Hmx Hone).
  destruct Hone as [Hex0 Hle].
  assert (He1le : e1 <= -52) by (rewrite fexp_eq in He1; lia).
  assert (Hm1le : m1 <= 2 ^ (- e1)).
  { destruct Hle as [Hlt|[-> ->]].
    - assert (shr_m mrs1 < 2 ^ (- e1)); [|lia].
      rewrite Hm1. replace (- e1) with (- ex - (e1 - ex)) by lia.
      apply div_pow2_lt; [lia|lia|exact Hlt].
    - assert (Hexact : shr_m mrs1 = 2 ^ (- e1)).
      { rewrite Hm1. replace (- e1) with (- ex - (e1 - ex)) by lia.
        apply div_pow2_exact. lia. }
      rewrite Hm1def, Hloc1; [cbn [round_nearest_even]; lia|reflexivity|].
      apply Z.mod_divide; [lia|]. exists (2 ^ (- ex - (e1 - ex))).
      rewrite <- Z.pow_add_r by lia. f_equal. lia. }
  split; [lia|]. rewrite Hm2.
  replace (- (e1 + k)) with (- e1 - k) by lia.
  rewrite <- (div_pow2_exact k (- e1)) by lia.
  apply Z.div_le_mono; lia.
Qed.

Lemma round_result_unit s m e :
  0 <= m -> (0 < m -> fexp prec emax (Zdigits2 m + e) = e) ->
  e <= 0 -> m <= 2 ^ (- e) ->
  signed_unit s (round_result s m e).
Proof.
  intros Hm Hcanon He Hle. destruct m as [|p|p]; [now left|right|lia].
  cbn [round_result]. replace (e <=? emax - prec) with true
    by (symmetry; apply Z.leb_le; change (emax - prec) with 971; lia).
  exists p, e. split; [reflexivity|]. split; [|split; assumption].
  unfold bounded, canonical_mantissa. apply andb_true_intro. split.
  - apply Z.eqb_eq. apply (Hcanon ltac:(lia)).
  - apply Z.leb_le. change (emax - prec) with 971. lia.
Qed.

Lemma SFdiv_core_small (a b : positive) :
  Zpos a <= Zpos b ->
  exists q e l, SFdiv_core_binary prec emax (Zpos a) 0 (Zpos b) 0 = (q, e, l)
    /\ 0 <= q /\ e <= fexp prec emax (Zdigits2 q + e) /\ at_most_one q e l.
Proof.
  intros Hab. unfold SFdiv_core_binary.
  destruct (Zdigits2_bounds (Zpos a) ltac:(lia)) as (Hda & Halo & Hahi).
  destruct (Zdigits2_bounds (Zpos b) ltac:(lia)) as (Hdb & Hblo & Hbhi).
  assert (Hd : Zdigits2 (Zpos a) <= Zdigits2 (Zpos b)) by (apply Zdigits2_le; lia).
  rewrite !Z.add_0_r, Z.sub_0_r.
  remember (fexp prec emax (Zdigits2 (Zpos a) - Zdigits2 (Zpos b))) as e' eqn:He'.
  rewrite fexp_eq in He'.
  rewrite Z.min_l by lia.
  assert (Hs : 0 < - e') by lia.
  replace (0 - e') with (- e') by lia.
  destruct (- e') as [|s|s] eqn:Es; try lia.
  rewrite Z.shiftl_mul_pow2 by lia.
  assert (Hp := pow2_pos (Zpos s) ltac:(lia)).
  assert (Hdiv := Z_div_mod (Zpos a * 2 ^ Zpos s) (Zpos b) ltac:(lia)).
  destruct (Z.div_eucl (Zpos a * 2 ^ Zpos s) (Zpos b)) as [q r].
  destruct Hdiv as [Hqr Hr].
  exists q, e', (new_location (Zpos b) r).
  split; [reflexivity|].
  assert (Hq0 : 0 <= q) by nia.
  assert (Hqle : q <= 2 ^ Zpos s) by nia.
  split; [exact Hq0|]. split.
  - rewrite fexp_eq.
    destruct (Z_le_gt_dec (-1074) (Zdigits2 (Zpos a) - Zdigits2 (Zpos b) - 53)) as [Hn|Hsub]; [|lia].
    assert (53 <= Zdigits2 q); [|lia].
    apply Zdigits2_ge; [lia|]. change (53 - 1) with 52.
    assert (Hs' : Zpos s = Zdigits2 (Zpos b) + 53 - Zdigits2 (Zpos a)) by lia.
    assert (Hpow : Zpos b * 2 ^ 52 <= Zpos a * 2 ^ Zpos s).
    { apply Z.le_trans with (2 ^ Zdigits2 (Zpos b) * 2 ^ 52); [nia|].
      apply Z.le_trans with (2 ^ (Zdigits2 (Zpos a) - 1) * 2 ^ Zpos s); [|nia].
      rewrite <- !Z.pow_add_r by lia. apply Z.pow_le_mono_r; lia. }
    nia.
  - split; [lia|]. replace (- e') with (Zpos s) by lia.
    destruct (Z.eq_dec q (2 ^ Zpos s)) as [Heq|Hne]; [right|left; lia].
    split; [exact Heq|].
    assert (r = 0) by nia. subst r.
    unfold new_location, new_location_even, new_location_odd.
    destruct (Z.even (Zpos b)); reflexivity.
Qed.

Lemma SFdiv_unit (a b : Z) :
  0 <= a <= b -> 0 < b ->
  signed_unit false (SFdiv prec emax (spec_of_int a) (spec_of_int b)).
Proof.
  intros Hab Hb. destruct b as [|b|b]; try lia.
  destruct a as [|a|a]; try lia; [now left|].
  cbn [spec_of_int SFdiv xorb].
  destruct (SFdiv_core_small a b ltac:(lia)) as (q & e & l & -> & Hq & Hdig & Hone).
  destruct (binary_round_aux_spec false q e l Hq Hdig) as (m & e2 & Hm & -> & Hcanon & Hle).
  destruct (Hle Hone) as [He2 Hm2].
  now apply round_result_unit.
Qed.

Lemma pos_iter_xO (m d : positive) : Zpos (Pos.iter xO m d) = Zpos m * 2 ^ Zpos d.
Proof.
  induction d as [|d IH] using Pos.peano_ind.
  - cbn. lia.
  - rewrite Pos.iter_succ, Pos2Z.inj_succ, Z.pow_succ_r by lia.
    rewrite Pos2Z.inj_xO, IH. lia.
Qed.

Lemma shl_align_spec m e e' :
  exists m', shl_align m e e' = (m', Z.min e e')
    /\ Zpos m' = Zpos m * 2 ^ (e - Z.min e e').
Proof.
  unfold shl_align. destruct (e' - e) as [|d|d] eqn:Ed.
  - exists m. rewrite Z.min_l by lia. rewrite Z.sub_diag. split; [reflexivity|cbn; lia].
  - exists m. rewrite Z.min_l by lia. rewrite Z.sub_diag. split; [reflexivity|cbn; lia].
  - exists (Pos.iter xO m d). rewrite Z.min_r by lia. split; [reflexivity|].
    rewrite pos_iter_xO. f_equal. f_equal. lia.
Qed.

Lemma aligned_at_most_one m e ez :
  e <= 0 -> Zpos m <= 2 ^ (- e) -> ez <= e ->
  Zpos (fst (shl_align m e ez)) <= 2 ^ (- ez).
Proof.
  intros He Hm Hez. destruct (shl_align_spec m e ez) as (m' & -> & Hm').
  cbn [fst]. rewrite Hm', Z.min_r by lia.
  replace (- ez) with (- e + (e - ez)) by lia. rewrite Z.pow_add_r by lia.
  assert (Hp := pow2_pos (e - ez) ltac:(lia)). nia.
Qed.

Lemma binary_round_unit s m e :
  e <= 0 -> Zpos m <= 2 ^ (- e) ->
  signed_unit s (binary_round prec emax s m e).
Proof.
  intros He Hm. unfold binary_round.
  destruct (shl_align_spec m e (fexp prec emax (Zpos (digits2_pos m) + e))) as (mz & -> & Hmz).
  change (Zpos (digits2_pos m)) with (Zdigits2 (Zpos m)) in *.
  remember (Z.min e (fexp prec emax (Zdigits2 (Zpos m) + e))) as ez eqn:Hez.
  assert (Hsh := pow2_pos (e - ez) ltac:(lia)).
  assert (Hdig : ez <= fexp prec emax (Zdigits2 (Zpos mz) + ez)).
  { destruct (Zdigits2_bounds (Zpos m) ltac:(lia)) as (Hd & Hlo & _).
    assert (Zdigits2 (Zpos m) + (e - ez) <= Zdigits2 (Zpos mz)).
    { apply Zdigits2_ge; [lia|]. rewrite Hmz.
      replace (Zdigits2 (Zpos m) + (e - ez) - 1) with (Zdigits2 (Zpos m) - 1 + (e - ez)) by lia.
      rewrite Z.pow_add_r by lia. nia. }
    rewrite !fexp_eq in *. lia. }
  destruct (binary_round_aux_spec s (Zpos mz) ez loc_Exact ltac:(lia) Hdig)
    as (m2 & e2 & Hm2 & -> & Hcanon & Hle).
  assert (Hone : at_most_one (Zpos mz) ez loc_Exact).
  { split; [lia|].
    assert (Zpos mz <= 2 ^ (- ez)).
    { rewrite Hmz. replace (- ez) with (- e + (e - ez)) by lia.
      rewrite Z.pow_add_r by lia. nia. }
    destruct (Z.eq_dec (Zpos mz) (2 ^ (- ez))); [right; now split|left; lia]. }
  destruct (Hle Hone) as [He2 Hm2le].
  now apply round_result_unit.
Qed.

Lemma SF_one_unit : signed_unit false SF_one.
Proof. right. exists 4503599627370496%positive, (-52). repeat split; cbn; lia. Qed.

Lemma SFsub_finite mx ex my ey :
  SFsub prec emax (S754_finite false mx ex) (S754_finite false my ey) =
  binary_normalize prec emax
    (Zpos (fst (shl_align mx ex (Z.min ex ey))) - Zpos (fst (shl_align my ey (Z.min ex ey))))
    (Z.min ex ey) false.
Proof. reflexivity. Qed.

Lemma SFsub_units x y :
  signed_unit false x -> signed_unit false y ->
  exists s, signed_unit s (SFsub prec emax x y).
Proof.
  intros [->|(mx & ex & -> & Hbx & Hex & Hmx)] [->|(my & ey & -> & Hby & Hey & Hmy)].
  - exists false. now left.
  - exists true. right. exists my, ey. now repeat split.
  - exists false. right. exists mx, ex. now repeat split.
  - rewrite SFsub_finite.
    assert (Hx := aligned_at_most_one mx ex (Z.min ex ey) Hex Hmx ltac:(lia)).
    assert (Hy := aligned_at_most_one my ey (Z.min ex ey) Hey Hmy ltac:(lia)).
    destruct (Zpos _ - Zpos _) as [|p|p] eqn:Ediff; cbn [binary_normalize].
    + exists false. now left.
    + exists false. apply binary_round_unit; lia.
    + exists true. apply binary_round_unit; lia.
Qed.

Lemma SFsub_one_unit y :
  signed_unit false y -> signed_unit false (SFsub prec emax SF_one y).
Proof.
  intros [->|(my & ey & -> & Hby & Hey & Hmy)]; [apply SF_one_unit|].
  unfold SF_one. rewrite SFsub_finite.
  assert (Hy := aligned_at_most_one my ey (Z.min (-52) ey) Hey Hmy ltac:(lia)).
  destruct (shl_align_spec 4503599627370496 (-52) (Z.min (-52) ey)) as (m1 & E1 & Hm1).
  rewrite E1. cbn [fst].
  assert (Hone : Zpos m1 = 2 ^ (- Z.min (-52) ey)).
  { rewrite Hm1. change (Zpos 4503599627370496) with (2 ^ 52).
    rewrite <- Z.pow_add_r by lia. f_equal. lia. }
  destruct (Zpos _ - Zpos _) as [|p|p] eqn:Ediff; cbn [binary_normalize].
  - now left.
  - apply binary_round_unit; lia.
  - lia.
Qed.

Lemma compare_cont_Eq a b : Pos.compare_cont Eq a b = Pos.compare a b.
Proof. reflexivity. Qed.

Lemma signed_unit_bounds s x :
  signed_unit s x ->
  SFleb x SF_one = true /\ SFleb (SFopp SF_one) x = true.
Proof.
  intros [->|(m & e & -> & Hb & He & Hm)]; [destruct s; split; reflexivity|].
  unfold bounded, canonical_mantissa in Hb. apply andb_prop in Hb as [Hc _].
  apply Z.eqb_eq in Hc. change (Zpos (digits2_pos m)) with (Zdigits2 (Zpos m)) in Hc.
  rewrite fexp_eq in Hc.
  assert (He52 : e <= -52).
  { destruct (Z_le_gt_dec e (-52)) as [|Hgt]; [assumption|exfalso].
    assert (Zdigits2 (Zpos m) <= 52); [|lia].
    apply Zdigits2_le; [lia|lia|].
    assert (2 ^ (- e) <= 2 ^ 51) by (apply Z.pow_le_mono_r; lia). lia. }
  unfold SFleb, SF_one. cbn [SFopp SFcompare negb].
  destruct s.
  - split; [reflexivity|].
    destruct (Z.compare_spec (-52) e) as [Heq|Hlt|Hgt]; [|lia|reflexivity].
    subst e. change (2 ^ (- -52)) with 4503599627370496 in Hm.
    rewrite compare_cont_Eq.
    destruct (Pos.compare_spec 4503599627370496 m); try reflexivity. lia.
  - split; [|reflexivity].
    destruct (Z.compare_spec e (-52)) as [Heq|Hlt|Hgt]; [|reflexivity|lia].
    subst e. change (2 ^ (- -52)) with 4503599627370496 in Hm.
    rewrite compare_cont_Eq.
    destruct (Pos.compare_spec m 4503599627370496); try reflexivity. lia.
Qed.

Lemma signed_unit_nonneg x : signed_unit false x -> SFleb (S754_zero false) x = true.
Proof. intros [->|(m & e & -> & _)]; reflexivity. Qed.

Lemma signed_unit_valid s x : signed_unit s x -> valid_binary x = true.
Proof. intros [->|(m & e & -> & Hb & _)]; [reflexivity|exact Hb]. Qed.

Lemma Prim2SF_consts :
  Prim2SF 0 = S754_zero false ∧ Prim2SF 1 = SF_one ∧ Prim2SF (-1) = SFopp SF_one.
Proof. repeat split; vm_compute; reflexivity. Qed.

Lemma float_quotient_unit (a b : Z) :
  0 ≤ a ≤ b → 0 < b →
  (0 <=? float_quotient a b)%float = true ∧ (float_quotient a b <=? 1)%float = true.
Proof.
  intros Hab Hb. assert (Hu := SFdiv_unit a b Hab Hb).
  destruct Prim2SF_consts as (H0 & H1 & _).
  unfold float_quotient, true_quotient. rewrite !leb_spec, H0, H1.
  rewrite Prim2SF_SF2Prim by (eapply signed_unit_valid; exact Hu).
  split; [by apply signed_unit_nonneg|by apply (signed_unit_bounds false)].
Qed.

Lemma loss_value_bounds (w t n : Z) :
  0 ≤ w ≤ n → 0 ≤ t ≤ n → 0 < n →
  (-1 <=? 1 - float_quotient w n - float_quotient t n)%float = true
  ∧ (1 - float_quotient w n - float_quotient t n <=? 1)%float = true.
Proof.
  intros Hw Ht Hn.
  assert (Hqw := SFdiv_unit w n Hw Hn). assert (Hqt := SFdiv_unit t n Ht Hn).
  destruct Prim2SF_consts as (_ & H1 & Hm1).
  unfold float_quotient, true_quotient.
  rewrite !leb_spec, !sub_spec, H1, Hm1.
  rewrite !Prim2SF_SF2Prim by (eapply signed_unit_valid; eassumption).
  destruct (SFsub_units _ _ (SFsub_one_unit _ Hqw) Hqt) as [s Hs].
  destruct (signed_unit_bounds s _ Hs) as [Hle Hge]. split; assumption.
Qed.

(** A count divided by a total that is at least as large: the division
    raises nothing. *)
Lemma int_truediv_fraction (a b : Z) :
  0 ≤ a ≤ b → 0 < b → int_truediv a b = Ok (float_quotient a b).
Proof.
  intros Hab Hb. unfold int_truediv.
  destruct (Z.eqb_spec b 0) as [|_]; [lia|].
  destruct (SFdiv_unit a b Hab Hb) as [H|(m & e & H & _)];
    unfold true_quotient at 1; rewrite H; reflexivity.
Qed.

(** Zero divided by a negative [int] is the negative zero. *)
Lemma int_truediv_zero_negative (b : Z) : b < 0 → int_truediv 0 b = Ok (-0)%float.
Proof. intros Hb. destruct b; [lia|lia|reflexivity]. Qed.

Lemma int_truediv_raises (a b : Z) (e : exn) :
  int_truediv a b = Raise e → (e = ZeroDivisionError ∧ b = 0) ∨ e = OverflowError.
Proof.
  unfold int_truediv. destruct (Z.eqb_spec b 0); [intros [= <-]; by left|].
  destruct (true_quotient a b); try done. intros [= <-]. by right.
Qed.

(** The rounding of [a / b] on some quotients: a tie goes to the even
    neighbour, the sign of a zero is that of the exact quotient, operands of
    any size are divided exactly before the one rounding, and the quotient is
    out of range from [2^1024 - 2^970] on. *)
Example int_truediv_examples :
  int_truediv 9 10 = Ok 0.9%float
  ∧ int_truediv 1 3 = Ok 0.33333333333333331%float
  ∧ int_truediv (-7) 2 = Ok (-3.5)%float
  ∧ int_truediv (2 ^ 53 + 1) 1 = Ok 9007199254740992%float
  ∧ int_truediv (2 ^ 53 + 3) 1 = Ok 9007199254740996%float
  ∧ int_truediv (10 ^ 400) (10 ^ 399) = Ok 10%float
  ∧ int_truediv 0 (-5) = Ok (-0)%float
  ∧ int_truediv 1 (10 ^ 400) = Ok 0%float
  ∧ int_truediv (2 ^ 1024 - 2 ^ 971) 1 = Ok 0x1.fffffffffffffp+1023%float
  ∧ int_truediv (2 ^ 1024 - 2 ^ 970) 1 = Raise OverflowError
  ∧ int_truediv (10 ^ 400) 1 = Raise OverflowError
  ∧ int_truediv 1 0 = Raise ZeroDivisionError.
Proof. repeat split; vm_compute; reflexivity. Qed.

(** ** Well-formed inputs *)

Lemma valid_card_deck c : valid_card c ↔ c ∈ deck.
Proof.
  unfold valid_card, deck. rewrite list_elem_of_bind. split.
  - intros (r & s & Hr & Hs & ->). exists r. split; [|done].
    apply list_elem_of_bind. exists s. split; [|done]. by apply list_elem_of_singleton.
  - intros (r & Hc & Hr). apply list_elem_of_bind in Hc as (s & Hc & Hs).
    apply list_elem_of_singleton in Hc. by exists r, s.
Qed.

Ltac valid_card_tac :=
  apply valid_card_deck; apply (bool_decide_unpack (_ ∈ deck)); vm_compute; exact I.

Lemma deck_parses : forallb parses_to_rank deck = true.
Proof. vm_compute. reflexivity. Qed.

Lemma parse_card_valid c :
  valid_card c → parse_card c = Ok (parsed_of c) ∧ is_rank (parsed_of c).1.
Proof.
  rewrite valid_card_deck. intros Hc.
  pose proof deck_parses as Hall. rewrite forallb_forall in Hall.
  apply list_elem_of_In, Hall in Hc. unfold parses_to_rank, parsed_of in *.
  destruct (parse_card c) as [[v s]|]; [|done].
  apply bool_decide_eq_true in Hc. done.
Qed.

Lemma mapM_parse_valid (cards : list string) :
  Forall valid_card cards → mapM parse_card cards = Ok (parsed_of <$> cards).
Proof.
  induction 1 as [|c cards Hc _ IH]; [done|].
  apply parse_card_valid in Hc as [Hc _]. cbn. rewrite Hc. cbn.
  unfold fmap at 1. cbn. rewrite IH. done.
Qed.

(** The examples of the docstrings of [parse_card] and [is_straight_3], and a
    token whose rank symbol is not one. *)
Example parse_card_docstring :
  parse_card "AH" = Ok (14, "H"%char) ∧ parse_card "7D" = Ok (7, "D"%char)
  ∧ parse_card "1S" = Raise (KeyError "1").
Proof. repeat split; vm_compute; reflexivity. Qed.

Example is_straight_3_docstring :
  is_straight_3 [2; 3; 4] = Ok (true, 4)
  ∧ is_straight_3 [12; 13; 14] = Ok (true, 14)
  ∧ is_straight_3 [14; 2; 3] = Ok (true, 3).
Proof. repeat split; vm_compute; reflexivity. Qed.

(** ** The classifier on parsed cards *)

Lemma hand_category_classify hole table parsed :
  mapM parse_card (hole ++ [table]) = Ok parsed →
  hand_category hole table = classify parsed.
Proof. intros H. unfold hand_category. rewrite H. reflexivity. Qed.

Lemma hand_category_valid hole table :
  Forall valid_card hole → valid_card table →
  hand_category hole table = classify (parsed_of <$> (hole ++ [table])).
Proof.
  intros Hh Ht. apply hand_category_classify, mapM_parse_valid.
  apply Forall_app. split; [done|]. by apply Forall_singleton.
Qed.

(** *** [sorted] *)

Lemma sorted_Sorted l : Sorted Z.le (sorted l).
Proof. apply (Sorted_merge_sort Z.le). Qed.

Lemma sorted_Permutation l : sorted l ≡ₚ l.
Proof. apply merge_sort_Permutation. Qed.

Lemma sorted_unique l r : Sorted Z.le r → r ≡ₚ l → sorted l = r.
Proof.
  intros Hs Hp. apply (Sorted_unique Z.le); [apply sorted_Sorted|done|].
  by rewrite sorted_Permutation.
Qed.

Lemma sorted_perm_eq l l' : l ≡ₚ l' → sorted l = sorted l'.
Proof.
  intros Hp. apply sorted_unique; [apply sorted_Sorted|].
  by rewrite sorted_Permutation.
Qed.

Lemma Sorted3 (r0 r1 r2 : Z) : r0 ≤ r1 ≤ r2 → Sorted Z.le [r0; r1; r2].
Proof. intros [? ?]. repeat constructor; done. Qed.

(** The three ranks in ascending order exist, whatever the order they came in. *)
Lemma sorted3_exists (a b c : Z) :
  ∃ r0 r1 r2, [r0; r1; r2] ≡ₚ [a; b; c] ∧ r0 ≤ r1 ≤ r2.
Proof.
  pose proof (sorted_Sorted [a; b; c]) as Hs.
  pose proof (sorted_Permutation [a; b; c]) as Hp.
  destruct (sorted [a; b; c]) as [|r0 [|r1 [|r2 [|]]]] eqn:E;
    try (apply Permutation_length in Hp; done).
  exists r0, r1, r2. split; [done|].
  inversion Hs as [|? ? Hs' Hh]; subst. inversion Hh; subst.
  inversion Hs' as [|? ? _ Hh']; subst. inversion Hh'; subst. done.
Qed.

(** A permutation of three elements is one of six. *)
Lemma Permutation3_inv {A} (x y z a b c : A) :
  [x; y; z] ≡ₚ [a; b; c] →
  (x = a ∧ y = b ∧ z = c) ∨ (x = a ∧ y = c ∧ z = b) ∨
  (x = b ∧ y = a ∧ z = c) ∨ (x = b ∧ y = c ∧ z = a) ∨
  (x = c ∧ y = a ∧ z = b) ∨ (x = c ∧ y = b ∧ z = a).
Proof.
  intros Hp.
  assert (Hx : x ∈ [a; b; c]) by (rewrite <- Hp; left).
  apply elem_of_cons in Hx as [->|Hx]; [|apply elem_of_cons in Hx as [->|Hx]].
  - apply Permutation_cons_inv in Hp.
    apply Permutation_length_2_inv in Hp as [Hp|Hp]; simplify_eq; tauto.
  - assert (Hp' : [y; z] ≡ₚ [a; c]).
    { apply (Permutation_cons_inv (a:=b)). rewrite Hp. apply perm_swap. }
    apply Permutation_length_2_inv in Hp' as [Hp'|Hp']; simplify_eq; tauto.
  - apply list_elem_of_singleton in Hx as ->.
    assert (Hp' : [y; z] ≡ₚ [a; b]).
    { apply (Permutation_cons_inv (a:=c)). rewrite Hp.
      change ([a; b; c]) with ([a; b] ++ [c]). by rewrite (Permutation_app_comm [a;b] [c]). }
    apply Permutation_length_2_inv in Hp' as [Hp'|Hp']; simplify_eq; tauto.
Qed.

(** *** [is_straight_3] on three ranks *)

Lemma wheel_set (r0 r1 r2 : Z) :
  r0 ≤ r1 ≤ r2 →
  list_to_set [r0; r1; r2] = ({[ 14; 2; 3 ]} : gset Z) ↔ r0 = 2 ∧ r1 = 3 ∧ r2 = 14.
Proof.
  intros Hle. split.
  - intros H.
    assert (Hx : ∀ x : Z, x ∈ [r0; r1; r2] ↔ x = 14 ∨ x = 2 ∨ x = 3).
    { intros x. rewrite <- (elem_of_list_to_set (C:=gset Z)), H.
      rewrite !elem_of_union, !elem_of_singleton. tauto. }
    pose proof (proj2 (Hx 14)) as H14. pose proof (proj2 (Hx 2)) as H2.
    pose proof (proj2 (Hx 3)) as H3. pose proof (proj1 (Hx r0)) as H0.
    pose proof (proj1 (Hx r1)) as H1.
    rewrite !elem_of_cons, !elem_of_nil in *. lia.
  - intros (-> & -> & ->). apply set_eq. intros x.
    rewrite elem_of_list_to_set, !elem_of_cons, elem_of_nil, !elem_of_union, !elem_of_singleton.
    tauto.
Qed.

Lemma wheel_perm (a b c r0 r1 r2 : Z) :
  [r0; r1; r2] ≡ₚ [a; b; c] → r0 ≤ r1 ≤ r2 →
  [a; b; c] ≡ₚ [14; 2; 3] ↔ r0 = 2 ∧ r1 = 3 ∧ r2 = 14.
Proof.
  intros Hp Hle. split.
  - intros Hw. rewrite <- Hp in Hw. apply Permutation3_inv in Hw. lia.
  - intros (-> & -> & ->). rewrite <- Hp.
    change [14; 2; 3] with ([14] ++ [2; 3]). by rewrite (Permutation_app_comm [14] [2; 3]).
Qed.

Lemma is_straight_3_sorted (a b c r0 r1 r2 : Z) :
  [r0; r1; r2] ≡ₚ [a; b; c] → r0 ≤ r1 ≤ r2 →
  is_straight_3 [a; b; c] =
    Ok (if bool_decide (r0 + 1 = r1 ∧ r1 + 1 = r2) then (true, r2)
        else if bool_decide (r0 = 2 ∧ r1 = 3 ∧ r2 = 14) then (true, 3)
        else (false, 0)).
Proof.
  intros Hp Hle. unfold is_straight_3.
  rewrite (sorted_unique [a; b; c] [r0; r1; r2]); [|by apply Sorted3|done].
  cbn. pose proof (wheel_set r0 r1 r2 Hle) as Hw.
  repeat (case_bool_decide; cbn); try done; tauto.
Qed.

(** *** The rank-count histogram *)

Lemma occ_nonneg v l : 0 ≤ occ v l.
Proof. induction l as [|x l IH]; cbn; [done|]. case_decide; lia. Qed.

Lemma occ_Permutation v l l' : l ≡ₚ l' → occ v l = occ v l'.
Proof. induction 1; cbn; lia. Qed.

Lemma count_loop_lookup (m : gmap Z Z) l v :
  foldl (λ counts v, <[ v := default 0 (counts !! v) + 1 ]> counts) m l !! v =
    if decide (occ v l = 0) then m !! v else Some (default 0 (m !! v) + occ v l).
Proof.
  revert m. induction l as [|x l IH]; intros m; cbn; [done|].
  rewrite IH. pose proof (occ_nonneg v l).
  destruct (decide (v = x)) as [->|Hne].
  - rewrite lookup_insert_eq. cbn. repeat case_decide; try lia; f_equal; lia.
  - rewrite lookup_insert_ne by done. repeat case_decide; try lia; f_equal; lia.
Qed.

Lemma count_ranks_lookup l v :
  count_ranks l !! v = if decide (occ v l = 0) then None else Some (occ v l).
Proof.
  unfold count_ranks. rewrite count_loop_lookup, lookup_empty. cbn.
  case_decide; [done|]. f_equal; lia.
Qed.

Lemma count_ranks_Permutation l l' : l ≡ₚ l' → count_ranks l = count_ranks l'.
Proof.
  intros Hp. apply map_eq. intros v.
  by rewrite !count_ranks_lookup, (occ_Permutation v l l' Hp).
Qed.

(** [k in counts.values()]: some rank occurs [k] times. *)
Lemma elem_of_values_count_ranks (k : Z) l :
  k ≠ 0 → k ∈ values (count_ranks l) ↔ ∃ v, occ v l = k.
Proof.
  intros Hk. unfold values. rewrite list_elem_of_fmap. split.
  - intros ([v k'] & -> & Hin). apply elem_of_map_to_list in Hin.
    rewrite count_ranks_lookup in Hin. case_decide; [done|].
    exists v. cbn. congruence.
  - intros (v & Hv). exists (v, k). split; [done|].
    apply elem_of_map_to_list. rewrite count_ranks_lookup.
    case_decide; [lia|]. by rewrite Hv.
Qed.

Lemma three_of_a_rank (a b c : Z) :
  3 ∈ values (count_ranks [a; b; c]) ↔ a = b ∧ b = c.
Proof.
  rewrite elem_of_values_count_ranks by done. split.
  - intros (v & Hv). cbn in Hv. repeat case_decide; lia.
  - intros (-> & ->). exists c. cbn. repeat case_decide; lia.
Qed.

Lemma two_of_a_rank (a b c : Z) :
  2 ∈ values (count_ranks [a; b; c]) ↔ (a = b ∨ b = c ∨ a = c) ∧ ¬ (a = b ∧ b = c).
Proof.
  rewrite elem_of_values_count_ranks by done. split.
  - intros (v & Hv). cbn in Hv. repeat case_decide; lia.
  - intros [[Hab|[Hbc|Hac]] Hn].
    + exists a. cbn. repeat case_decide; lia.
    + exists b. cbn. repeat case_decide; lia.
    + exists a. cbn. repeat case_decide; lia.
Qed.

(** *** The flush test *)

Lemma flush_three (s1 s2 s3 : ascii) :
  size (list_to_set [s1; s2; s3] : gset ascii) = 1%nat ↔ s1 = s2 ∧ s2 = s3.
Proof.
  split.
  - intros Hs. split.
    + apply (size_singleton_inv _ _ _ Hs); rewrite elem_of_list_to_set, !elem_of_cons; tauto.
    + apply (size_singleton_inv _ _ _ Hs); rewrite elem_of_list_to_set, !elem_of_cons; tauto.
  - intros (-> & ->).
    assert (list_to_set [s3; s3; s3] = ({[ s3 ]} : gset ascii)) as ->.
    { apply set_eq. intros x.
      rewrite elem_of_list_to_set, !elem_of_cons, elem_of_nil, elem_of_singleton. tauto. }
    apply size_singleton.
Qed.

Lemma suits_Permutation (l l' : list ascii) :
  l ≡ₚ l' → (list_to_set l : gset ascii) = list_to_set l'.
Proof.
  intros Hp. apply set_eq. intros x. by rewrite !elem_of_list_to_set, Hp.
Qed.

(** ** The category as the specification words it *)

Lemma occ_elem_of v l : occ v l ≠ 0 → v ∈ l.
Proof.
  induction l as [|x l IH]; cbn; [done|]. case_decide as Hv.
  - intros _. subst. left.
  - intros H. right. apply IH. lia.
Qed.

Lemma spec_appears_values (k : Z) l :
  k ≠ 0 → spec_appears k l = bool_decide (k ∈ values (count_ranks l)).
Proof.
  intros Hk. apply bool_decide_ext. rewrite elem_of_values_count_ranks by done.
  rewrite Exists_exists. split.
  - intros (v & _ & Hv). by exists v.
  - intros (v & Hv). exists v. split; [|done]. apply occ_elem_of. lia.
Qed.

Lemma ascending_min_max (a b c r0 r1 r2 : Z) :
  [r0; r1; r2] ≡ₚ [a; b; c] → r0 ≤ r1 ≤ r2 →
  r0 = Z.min a (Z.min b c) ∧ r2 = Z.max a (Z.max b c) ∧ r0 + r1 + r2 = a + b + c.
Proof. intros Hp Hle. apply Permutation3_inv in Hp. lia. Qed.

Lemma spec_straight_sorted (a b c r0 r1 r2 : Z) :
  [r0; r1; r2] ≡ₚ [a; b; c] → r0 ≤ r1 ≤ r2 →
  spec_straight a b c =
    bool_decide (r0 + 1 = r1 ∧ r1 + 1 = r2) || bool_decide (r0 = 2 ∧ r1 = 3 ∧ r2 = 14).
Proof.
  intros Hp Hle. unfold spec_straight.
  destruct (ascending_min_max _ _ _ _ _ _ Hp Hle) as (<- & <- & Hsum).
  f_equal; apply bool_decide_ext; [lia|]. by apply wheel_perm.
Qed.

Lemma is_straight_3_spec_straight (a b c : Z) :
  ∃ high, is_straight_3 [a; b; c] = Ok (spec_straight a b c, high).
Proof.
  destruct (sorted3_exists a b c) as (r0 & r1 & r2 & Hp & Hle).
  rewrite (is_straight_3_sorted _ _ _ _ _ _ Hp Hle), (spec_straight_sorted _ _ _ _ _ _ Hp Hle).
  repeat case_bool_decide; cbn; eauto.
Qed.

(** The classifier follows the precedence of the specification. *)
Lemma classify_spec_category (p1 p2 p3 : Z * ascii) :
  classify [p1; p2; p3] = Ok (spec_category p1 p2 p3).
Proof.
  destruct p1 as [a s1], p2 as [b s2], p3 as [c s3].
  unfold classify, spec_category. cbn [fmap list_fmap fst snd].
  destruct (is_straight_3_spec_straight a b c) as [high ->]. cbn.
  rewrite !spec_appears_values by done.
  rewrite (bool_decide_ext _ _ (flush_three s1 s2 s3)). fold (spec_flush s1 s2 s3).
  destruct (spec_straight a b c), (spec_flush s1 s2 s3); cbn;
    repeat case_bool_decide; done.
Qed.

Lemma classify_Permutation (parsed parsed' : list (Z * ascii)) :
  parsed ≡ₚ parsed' → classify parsed = classify parsed'.
Proof.
  intros Hp. unfold classify.
  assert (Hr : parsed.*1 ≡ₚ parsed'.*1) by (by apply fmap_Permutation).
  assert (Hs : parsed.*2 ≡ₚ parsed'.*2) by (by apply fmap_Permutation).
  rewrite (suits_Permutation _ _ Hs), (count_ranks_Permutation _ _ Hr).
  unfold is_straight_3. by rewrite (sorted_perm_eq _ _ Hr).
Qed.

Lemma spec_category_range p1 p2 p3 : 0 ≤ spec_category p1 p2 p3 ≤ 5.
Proof. unfold spec_category. repeat case_match; lia. Qed.

Lemma hand_category_three (c1 c2 t : string) :
  valid_card c1 → valid_card c2 → valid_card t →
  hand_category [c1; c2] t = Ok (spec_category (parsed_of c1) (parsed_of c2) (parsed_of t)).
Proof.
  intros H1 H2 Ht. rewrite hand_category_valid; [|by repeat constructor|done].
  apply classify_spec_category.
Qed.

(** ** The hand classifier *)

(** C3: on every valid 3-card hand the three tokens parse and [hand_category]
    returns the category of the fixed precedence: straight and flush 5, three
    of a rank 4, straight 3, flush 2, pair 1, else 0; and the six hands of the
    specification get STRAIGHT, STRAIGHT_FLUSH, STRAIGHT (wheel), TRIPS, PAIR
    and HIGH_CARD. *)
Theorem hand_category_precedence :
  (∀ c1 c2 t : string,
     valid_card c1 → valid_card c2 → valid_card t →
     parse_card c1 = Ok (parsed_of c1) ∧ parse_card c2 = Ok (parsed_of c2) ∧
     parse_card t = Ok (parsed_of t) ∧
     hand_category [c1; c2] t =
       Ok (spec_category (parsed_of c1) (parsed_of c2) (parsed_of t)))
  ∧ hand_category ["2C"; "3D"] "4H" = Ok 3
  ∧ hand_category ["QS"; "KS"] "AS" = Ok 5
  ∧ hand_category ["AC"; "2D"] "3H" = Ok 3
  ∧ hand_category ["7C"; "7D"] "7H" = Ok 4
  ∧ hand_category ["9C"; "9D"] "2H" = Ok 1
  ∧ hand_category ["2C"; "5D"] "9H" = Ok 0.
Proof.
  split.
  - intros c1 c2 t H1 H2 Ht.
    repeat split; try (by apply parse_card_valid). by apply hand_category_three.
  - repeat split; vm_compute; reflexivity.
Qed.

Lemma hand_category_precedence_witness :
  valid_card "JH" ∧ valid_card "JS" ∧ valid_card "4H" ∧
  hand_category ["JH"; "JS"] "4H" = Ok 1.
Proof.
  assert (H1 : valid_card "JH") by valid_card_tac.
  assert (H2 : valid_card "JS") by valid_card_tac.
  assert (H3 : valid_card "4H") by valid_card_tac.
  split; [exact H1|]. split; [exact H2|]. split; [exact H3|].
  destruct (proj1 hand_category_precedence "JH" "JS" "4H" H1 H2 H3) as (_ & _ & _ & ->).
  vm_compute. reflexivity.
Defined.

(** C6: on a valid 3-card hand, [hand_category] returns the same category for
    every order of the three cards, whichever two are passed as the hole
    cards and whichever as the table card. *)
Theorem hand_category_symmetric (a b c x y z : string) :
  valid_card a → valid_card b → valid_card c →
  [x; y; z] ≡ₚ [a; b; c] →
  ∃ k, 0 ≤ k ≤ 5 ∧ hand_category [a; b] c = Ok k ∧ hand_category [x; y] z = Ok k.
Proof.
  intros Ha Hb Hc Hp.
  assert (Habc : Forall valid_card [a; b; c]) by (by repeat constructor).
  assert (Hxyz : Forall valid_card [x; y; z]) by (by rewrite Hp).
  exists (spec_category (parsed_of a) (parsed_of b) (parsed_of c)).
  split; [apply spec_category_range|]. split; [by apply hand_category_three|].
  rewrite <- (hand_category_three a b c) by done.
  rewrite !hand_category_classify with (parsed := parsed_of <$> [x; y; z])
    by (by apply (mapM_parse_valid [x; y; z])).
  rewrite (hand_category_classify [a; b] c (parsed_of <$> [a; b; c]))
    by (by apply (mapM_parse_valid [a; b; c])).
  apply classify_Permutation. by apply fmap_Permutation.
Qed.

Lemma hand_category_symmetric_witness :
  hand_category ["KS"; "QS"] "AS" = Ok 5 ∧ hand_category ["AS"; "KS"] "QS" = Ok 5.
Proof.
  assert (H1 : valid_card "KS") by valid_card_tac.
  assert (H2 : valid_card "QS") by valid_card_tac.
  assert (H3 : valid_card "AS") by valid_card_tac.
  assert (Hp : ["AS"; "KS"; "QS"] ≡ₚ ["KS"; "QS"; "AS"]).
  { change ["KS"; "QS"; "AS"] with (["KS"; "QS"] ++ ["AS"]).
    by rewrite (Permutation_app_comm ["KS"; "QS"] ["AS"]). }
  destruct (hand_category_symmetric "KS" "QS" "AS" "AS" "KS" "QS" H1 H2 H3 Hp)
    as (k & _ & Hk & Hk').
  rewrite Hk, Hk'. assert (k = 5) as ->; [|done].
  assert (E : hand_category ["KS"; "QS"] "AS" = Ok 5) by (vm_compute; reflexivity).
  congruence.
Defined.

(** C7: on any three rank values, with [r0 ≤ r1 ≤ r2] the ranks in ascending
    order, [is_straight_3] returns [(true, r2)], the largest rank, when they
    are consecutive; it returns [(true, 3)], high value 3 and not 14, when the
    multiset of the ranks is {14, 2, 3}, and on rank values in no other case;
    and it returns [(false, 0)] in every case that is neither. *)
Theorem is_straight_3_spec (a b c r0 r1 r2 : Z) :
  [r0; r1; r2] ≡ₚ [a; b; c] → r0 ≤ r1 ≤ r2 →
  (r0 + 1 = r1 ∧ r1 + 1 = r2 →
     is_straight_3 [a; b; c] = Ok (true, r2) ∧ r2 = Z.max a (Z.max b c))
  ∧ ([a; b; c] ≡ₚ [14; 2; 3] → is_straight_3 [a; b; c] = Ok (true, 3))
  ∧ (is_rank a → is_rank b → is_rank c →
     is_straight_3 [a; b; c] = Ok (true, 3) → [a; b; c] ≡ₚ [14; 2; 3])
  ∧ (¬ (r0 + 1 = r1 ∧ r1 + 1 = r2) → ¬ [a; b; c] ≡ₚ [14; 2; 3] →
     is_straight_3 [a; b; c] = Ok (false, 0)).
Proof.
  intros Hp Hle. unfold is_rank.
  rewrite (is_straight_3_sorted _ _ _ _ _ _ Hp Hle).
  rewrite (wheel_perm _ _ _ _ _ _ Hp Hle).
  destruct (ascending_min_max _ _ _ _ _ _ Hp Hle) as (Hmin & Hmax & Hsum).
  split; [|split; [|split]].
  - intros Hcons. split; [by rewrite bool_decide_eq_true_2|done].
  - intros Hw. rewrite bool_decide_eq_false_2 by lia. by rewrite bool_decide_eq_true_2.
  - intros Ha Hb Hc. repeat case_bool_decide; intros [=]; lia.
  - intros Hn Hw. by rewrite !bool_decide_eq_false_2.
Qed.

(** Off the rank values the high value 3 has a second source: 1, 2, 3 are
    consecutive. *)
Example is_straight_3_below_ranks : is_straight_3 [1; 2; 3] = Ok (true, 3).
Proof. vm_compute. reflexivity. Qed.

Lemma is_straight_3_spec_witness :
  is_straight_3 [14; 2; 3] = Ok (true, 3)
  ∧ is_straight_3 [13; 12; 14] = Ok (true, 14)
  ∧ is_straight_3 [9; 4; 14] = Ok (false, 0).
Proof.
  assert (Hw : [2; 3; 14] ≡ₚ [14; 2; 3]).
  { change [14; 2; 3] with ([14] ++ [2; 3]). by rewrite (Permutation_app_comm [14] [2; 3]). }
  assert (Hq : [12; 13; 14] ≡ₚ [13; 12; 14]) by apply perm_swap.
  assert (Hh : [4; 9; 14] ≡ₚ [9; 4; 14]) by apply perm_swap.
  split; [|split].
  - apply (proj1 (proj2 (is_straight_3_spec 14 2 3 2 3 14 Hw ltac:(lia)))). reflexivity.
  - apply (proj1 (is_straight_3_spec 13 12 14 12 13 14 Hq ltac:(lia))). lia.
  - apply (proj2 (proj2 (proj2 (is_straight_3_spec 9 4 14 4 9 14 Hh ltac:(lia))))); [lia|].
    intros Hp. apply Permutation3_inv in Hp. lia.
Defined.

(** ** The outcome simulator *)

#[local] Arguments hand_category : simpl never.
#[local] Arguments available : simpl never.

Lemma NoDup_deck : NoDup deck.
Proof. apply (bool_decide_unpack (NoDup deck)). vm_compute. exact I. Qed.

Lemma length_deck : length deck = 52%nat.
Proof. reflexivity. Qed.

Lemma available_valid hole table : Forall valid_card (available hole table).
Proof.
  apply Forall_forall. intros c Hc. apply list_elem_of_filter in Hc as [_ Hc].
  by apply valid_card_deck.
Qed.

(** Removing the known cards leaves at least the deck less their number. *)
Lemma available_length hole table :
  (52 ≤ length (available hole table) + length (hole ++ [table]))%nat.
Proof.
  unfold available. set (known := hole ++ [table]).
  set (P := λ card : string, card ∉ known).
  pose proof (filter_app_complement P deck) as Hp.
  apply Permutation_length in Hp. rewrite length_app, length_deck in Hp.
  assert (Hk : (length (filter (λ x, ¬ P x) deck) ≤ length known)%nat).
  { apply submseteq_length, NoDup_submseteq.
    - apply NoDup_filter, NoDup_deck.
    - intros x Hx. apply list_elem_of_filter in Hx as [Hx _].
      unfold P in Hx. by destruct (decide (x ∈ known)). }
  lia.
Qed.

Lemma sample2_ok choice (population : list string) :
  (2 ≤ length population)%nat →
  ∃ x y, sample2 choice population = Ok [x; y] ∧ x ∈ population ∧ y ∈ population.
Proof.
  intros Hlen. unfold sample2.
  destruct (Nat.ltb_spec (length population) 2) as [|_]; [lia|].
  set (i := (choice.1 mod length population)%nat).
  set (j := (choice.2 mod (length population - 1))%nat).
  assert (Hi : (i < length population)%nat) by (apply Nat.mod_upper_bound; lia).
  assert (Hj : (j < length (delete i population))%nat).
  { rewrite length_delete by (by apply lookup_lt_is_Some_2).
    apply Nat.mod_upper_bound; lia. }
  destruct (lookup_lt_is_Some_2 _ _ Hi) as [x Hx].
  destruct (lookup_lt_is_Some_2 _ _ Hj) as [y Hy].
  exists x, y. unfold getitem. rewrite Hx. cbn. rewrite Hy. cbn.
  split; [done|]. split.
  - by eapply list_elem_of_lookup_2.
  - eapply list_elem_of_delete_inv. by eapply list_elem_of_lookup_2.
Qed.

(** Every two cards at distinct positions of the population are drawn by
    some choice. *)
Lemma sample2_complete (population : list string) (i j : nat) (x y : string) :
  population !! i = Some x → population !! j = Some y → i ≠ j →
  ∃ choice, sample2 choice population = Ok [x; y].
Proof.
  intros Hx Hy Hij.
  pose proof (lookup_lt_Some _ _ _ Hx) as Hi.
  pose proof (lookup_lt_Some _ _ _ Hy) as Hj.
  exists (i, if decide (j < i)%nat then j else (j - 1)%nat). unfold sample2.
  destruct (Nat.ltb_spec (length population) 2) as [|_]; [lia|].
  cbn [fst snd]. rewrite Nat.mod_small by done.
  unfold getitem. rewrite Hx. cbn [mbind result_bind].
  case_decide.
  - rewrite Nat.mod_small by lia. rewrite list_lookup_delete_lt by done.
    by rewrite Hy.
  - rewrite Nat.mod_small by lia. rewrite list_lookup_delete_ge by lia.
    replace (S (j - 1)) with j by lia. by rewrite Hy.
Qed.

Lemma trial_ok my_category pool table choice (wins ties : Z) :
  Forall valid_card pool → (2 ≤ length pool)%nat → valid_card table →
  ∃ wins' ties',
    trial my_category pool table choice (wins, ties) = Ok (wins', ties')
    ∧ wins ≤ wins' ∧ ties ≤ ties' ∧ wins' + ties' ≤ wins + ties + 1.
Proof.
  intros Hpool Hlen Ht. unfold trial.
  destruct (sample2_ok choice pool Hlen) as (x & y & -> & Hx & Hy). cbn.
  rewrite Forall_forall in Hpool.
  rewrite hand_category_three by auto. cbn.
  repeat case_bool_decide; eexists _, _; (split; [reflexivity|lia]).
Qed.

Lemma run_trials_ok rnd my_category pool table range (wins ties : Z) :
  Forall valid_card pool → (2 ≤ length pool)%nat → valid_card table →
  ∃ wins' ties',
    run_trials rnd my_category pool table range (wins, ties) = Ok (wins', ties')
    ∧ wins ≤ wins' ∧ ties ≤ ties'
    ∧ wins' + ties' ≤ wins + ties + Z.of_nat (length range).
Proof.
  intros Hpool Hlen Ht. revert wins ties.
  induction range as [|k range IH]; intros wins ties; cbn [run_trials].
  - exists wins, ties. cbn. split; [done|lia].
  - destruct (trial_ok my_category pool table (rnd k) wins ties Hpool Hlen Ht)
      as (w1 & t1 & -> & Hw1 & Ht1 & Hs1). cbn.
    destruct (IH w1 t1) as (w2 & t2 & -> & Hw2 & Ht2 & Hs2).
    exists w2, t2. split; [done|]. cbn [length]. lia.
Qed.

(** On a valid hand the loop ends, with counters that partition at most the
    trials that were run. *)
Lemma simulate_ok rnd (c1 c2 table : string) (n_simulations : Z) :
  valid_card c1 → valid_card c2 → valid_card table →
  ∃ wins ties,
    simulate rnd [c1; c2] table n_simulations = Ok (wins, ties)
    ∧ 0 ≤ wins ∧ 0 ≤ ties ∧ wins + ties ≤ Z.max 0 n_simulations.
Proof.
  intros H1 H2 Ht. unfold simulate.
  rewrite hand_category_three by done. cbn.
  pose proof (available_length [c1; c2] table) as Hlen.
  rewrite length_app in Hlen. cbn [length] in Hlen.
  edestruct (run_trials_ok rnd) as (w & t & -> & Hw & Ht' & Hs);
    [apply available_valid| |exact Ht|].
  { lia. }
  exists w, t. split; [done|]. rewrite length_seq in Hs. lia.
Qed.

(** The triple that [monte_carlo_sim] returns, from the counters. *)
Lemma monte_carlo_sim_counts rnd hole table (n_simulations wins ties : Z) :
  simulate rnd hole table n_simulations = Ok (wins, ties) →
  0 ≤ wins ≤ n_simulations → 0 ≤ ties ≤ n_simulations → 0 < n_simulations →
  monte_carlo_sim rnd hole table n_simulations =
    Ok (float_quotient wins n_simulations,
        (1 - float_quotient wins n_simulations
           - float_quotient ties n_simulations)%float,
        float_quotient ties n_simulations).
Proof.
  intros Hs Hw Ht Hn. unfold monte_carlo_sim. rewrite Hs. cbn [mbind result_bind].
  rewrite (int_truediv_fraction wins) by done. cbn [mbind result_bind].
  rewrite (int_truediv_fraction ties) by done. reflexivity.
Qed.

Example rnd_tie_then_wins_draws :
  sample2 (rnd_tie_then_wins 0%nat) (available ["AS"; "KS"] "QS") = Ok ["TS"; "JS"]
  ∧ sample2 (rnd_tie_then_wins 1%nat) (available ["AS"; "KS"] "QS") = Ok ["2C"; "3D"].
Proof. split; vm_compute; reflexivity. Qed.

Example rnd_3_wins_4_ties_counts :
  simulate rnd_3_wins_4_ties ["9C"; "9D"] "2H" 10 = Ok (3, 4).
Proof. vm_compute. reflexivity. Qed.

(** C5, as stated, fails: with nine wins and one tie in ten trials the loss
    value that is returned is negative, and with three wins and four ties in
    ten trials the three values do not sum to 1. *)
Lemma simulator_probabilities_counterexample :
  monte_carlo_sim rnd_tie_then_wins ["AS"; "KS"] "QS" 10
    = Ok (0.9, 1 - 0.9 - 0.1, 0.1)%float
  ∧ (1 - 0.9 - 0.1 <? 0)%float = true
  ∧ monte_carlo_sim rnd_3_wins_4_ties ["9C"; "9D"] "2H" 10
    = Ok (0.3, 1 - 0.3 - 0.4, 0.4)%float
  ∧ (0.3 + 0.4 + (1 - 0.3 - 0.4) =? 1)%float = false
  ∧ (0.3 + (1 - 0.3 - 0.4) + 0.4 =? 1)%float = false.
Proof. repeat split; vm_compute; reflexivity. Qed.

(** C5, amended: for every valid hand, shared card, positive trial count and
    random source the simulator returns a triple (P_win, P_lose, P_tie); the
    win and tie counts are non-negative and together never exceed the trial
    count; P_win and P_tie are the quotients wins/trials and ties/trials
    rounded to binary64 and P_lose is 1 − P_win − P_tie in binary64
    arithmetic; and of the values returned, 0 ≤ P_win ≤ 1, 0 ≤ P_tie ≤ 1 and
    −1 ≤ P_lose ≤ 1. *)
Theorem simulator_counts_partition rnd (c1 c2 table : string) (n_simulations : Z) :
  valid_card c1 → valid_card c2 → valid_card table → 0 < n_simulations →
  ∃ (wins ties : Z) (P_win P_lose P_tie : float),
    simulate rnd [c1; c2] table n_simulations = Ok (wins, ties)
    ∧ 0 ≤ wins ∧ 0 ≤ ties ∧ wins + ties ≤ n_simulations
    ∧ monte_carlo_sim rnd [c1; c2] table n_simulations = Ok (P_win, P_lose, P_tie)
    ∧ P_win = float_quotient wins n_simulations
    ∧ P_tie = float_quotient ties n_simulations
    ∧ P_lose = (1 - P_win - P_tie)%float
    ∧ (0 <=? P_win)%float = true ∧ (P_win <=? 1)%float = true
    ∧ (0 <=? P_tie)%float = true ∧ (P_tie <=? 1)%float = true
    ∧ (-1 <=? P_lose)%float = true ∧ (P_lose <=? 1)%float = true.
Proof.
  intros H1 H2 Ht Hn.
  destruct (simulate_ok rnd c1 c2 table n_simulations H1 H2 Ht)
    as (wins & ties & Hs & Hw & Hti & Hsum).
  assert (Hwn : 0 ≤ wins ≤ n_simulations) by lia.
  assert (Htn : 0 ≤ ties ≤ n_simulations) by lia.
  destruct (float_quotient_unit wins n_simulations Hwn Hn) as [Hw0 Hw1].
  destruct (float_quotient_unit ties n_simulations Htn Hn) as [Ht0 Ht1].
  destruct (loss_value_bounds wins ties n_simulations Hwn Htn Hn) as [Hl0 Hl1].
  exists wins, ties. eexists _, _, _.
  split; [exact Hs|]. split; [lia|]. split; [lia|]. split; [lia|].
  split; [by apply monte_carlo_sim_counts|].
  split; [reflexivity|]. split; [reflexivity|]. split; [reflexivity|].
  repeat split; assumption.
Qed.

Lemma simulator_counts_partition_witness :
  ∃ P_win P_lose P_tie : float,
    monte_carlo_sim rnd_3_wins_4_ties ["9C"; "9D"] "2H" 10 = Ok (P_win, P_lose, P_tie)
    ∧ (P_win <=? 1)%float = true ∧ (P_tie <=? 1)%float = true
    ∧ (P_lose <=? 1)%float = true.
Proof.
  assert (H1 : valid_card "9C") by valid_card_tac.
  assert (H2 : valid_card "9D") by valid_card_tac.
  assert (H3 : valid_card "2H") by valid_card_tac.
  assert (Hn : 0 < 10) by lia.
  destruct (simulator_counts_partition rnd_3_wins_4_ties "9C" "9D" "2H" 10 H1 H2 H3 Hn)
    as (wins & ties & P_win & P_lose & P_tie & _ & _ & _ & _ & Hm & _ & _ & _
        & _ & Hw & _ & Ht & _ & Hl).
  exists P_win, P_lose, P_tie.
  split; [exact Hm|]. split; [exact Hw|]. split; [exact Ht|exact Hl].
Defined.

(** C2: the triple that [monte_carlo_sim] returns is, in this order, the win
    value, the loss value and the tie value: its second component is
    1 − wins/trials − ties/trials and its third is ties/trials. With one
    trial that ties, it returns (0, 0, 1); the tie probability 1 is the third
    component, not the second. *)
Theorem monte_carlo_sim_returns_win_lose_tie :
  (∀ rnd (c1 c2 table : string) (n_simulations : Z),
     valid_card c1 → valid_card c2 → valid_card table → 0 < n_simulations →
     ∃ wins ties prob_win prob_tie,
       simulate rnd [c1; c2] table n_simulations = Ok (wins, ties)
       ∧ prob_win = float_quotient wins n_simulations
       ∧ prob_tie = float_quotient ties n_simulations
       ∧ monte_carlo_sim rnd [c1; c2] table n_simulations =
           Ok (prob_win, (1 - prob_win - prob_tie)%float, prob_tie))
  ∧ simulate rnd_ties ["AS"; "KS"] "QS" 1 = Ok (0, 1)
  ∧ monte_carlo_sim rnd_ties ["AS"; "KS"] "QS" 1 = Ok (0, 0, 1)%float.
Proof.
  split; [|split; vm_compute; reflexivity].
  intros rnd c1 c2 table n H1 H2 Ht Hn.
  destruct (simulate_ok rnd c1 c2 table n H1 H2 Ht) as (wins & ties & Hs & Hw & Hti & Hsum).
  exists wins, ties. eexists _, _. split; [exact Hs|]. split; [reflexivity|].
  split; [reflexivity|]. apply monte_carlo_sim_counts; [done|lia|lia|lia].
Qed.

Lemma monte_carlo_sim_returns_win_lose_tie_witness :
  ∃ prob_win prob_lose prob_tie,
    monte_carlo_sim rnd_tie_then_wins ["AS"; "KS"] "QS" 10
      = Ok (prob_win, prob_lose, prob_tie)
    ∧ prob_lose = (1 - prob_win - prob_tie)%float.
Proof.
  assert (H1 : valid_card "AS") by valid_card_tac.
  assert (H2 : valid_card "KS") by valid_card_tac.
  assert (H3 : valid_card "QS") by valid_card_tac.
  assert (Hn : 0 < 10) by lia.
  destruct (proj1 monte_carlo_sim_returns_win_lose_tie
              rnd_tie_then_wins "AS" "KS" "QS" 10 H1 H2 H3 Hn)
    as (wins & ties & prob_win & prob_tie & _ & _ & _ & Hm).
  exists prob_win, (1 - prob_win - prob_tie)%float, prob_tie.
  split; [exact Hm|reflexivity].
Defined.

(** ** Round states *)

Lemma opp_of_state_well_formed state :
  well_formed state → well_formed_stats (opp_of_state state).
Proof.
  intros (_ & _ & Hstats & _). unfold opp_of_state.
  destruct (opponent_stats state) as [d|].
  - specialize (Hstats d eq_refl). case_decide as Hd; [|done].
    destruct Hstats as (f & _ & _ & Hf & _). by rewrite Hd, lookup_empty in Hf.
  - exists 0, 0, 0. repeat split; done.
Qed.

Lemma simulate_default_ok rnd c1 c2 table :
  valid_card c1 → valid_card c2 → valid_card table →
  ∃ prob_win prob_lose prob_tie,
    monte_carlo_sim rnd [c1; c2] table 10000 = Ok (prob_win, prob_lose, prob_tie).
Proof.
  intros H1 H2 Ht.
  destruct (simulate_ok rnd c1 c2 table 10000 H1 H2 Ht) as (w & t & Hs & Hw & Hti & Hsum).
  rewrite (monte_carlo_sim_counts _ _ _ _ _ _ Hs) by lia. eauto.
Qed.

(** ** The expected-value policy *)

(** C1: on every well-formed round state whose opponent counts sum to zero,
    [decide_action] takes the branch that sets the fold and raise rates to
    0.33 and assigns no call rate, and then raises UnboundLocalError where it
    reads [opp_call_rate]; it returns no label. *)
Theorem decide_action_zero_stats_unbound rnd (state : State) :
  well_formed state → total_opp_actions state = Some 0 →
  Bot.opp_rates (opp_of_state state) = Ok (0.33, 0.33, None)%float
  ∧ Bot.decide_action rnd state = Raise (UnboundLocalError "opp_call_rate").
Proof.
  intros Hwf Htot.
  destruct (opp_of_state_well_formed state Hwf) as (f & c & r & Hf & Hc & Hr & _).
  unfold total_opp_actions in Htot. rewrite Hf, Hc, Hr in Htot. cbn in Htot.
  assert (Hrates : Bot.opp_rates (opp_of_state state) = Ok (0.33, 0.33, None)%float).
  { unfold Bot.opp_rates, stats_getitem. rewrite Hf, Hc, Hr. cbn.
    rewrite bool_decide_eq_true_2; [done|congruence]. }
  split; [done|].
  destruct Hwf as ((c1 & c2 & Hh & H1 & H2) & (t & Ht & Hvt) & _).
  unfold Bot.decide_action. rewrite Hh, Ht. cbn [dict_getitem mbind result_bind].
  rewrite Hrates. cbn [mbind result_bind].
  rewrite hand_category_three by done. cbn [mbind result_bind].
  destruct (simulate_default_ok rnd c1 c2 t H1 H2 Hvt) as (pw & pl & pt & ->).
  reflexivity.
Qed.

Lemma state_straight_flush_no_stats_well_formed :
  well_formed state_straight_flush_no_stats.
Proof.
  split; [|split; [|split]].
  - exists "AS", "KS". split; [done|]. split; valid_card_tac.
  - exists "QS". split; [done|]. valid_card_tac.
  - intros d [= <-]. exists 0, 0, 0. repeat split; done.
  - intros n [= <-]. done.
Qed.

Lemma decide_action_zero_stats_unbound_witness :
  Bot.decide_action rnd_ties state_straight_flush_no_stats
    = Raise (UnboundLocalError "opp_call_rate").
Proof.
  apply (decide_action_zero_stats_unbound rnd_ties state_straight_flush_no_stats).
  - exact state_straight_flush_no_stats_well_formed.
  - vm_compute. reflexivity.
Defined.

(** With statistics that are not all zero, [decide_action] returns what the
    decision tree says on the values it computed. Of the triple of the
    simulator it names the second component [prob_tie] and the third
    [prob_lose]. *)
Lemma decide_action_policy rnd (state : State) hole table opp_fold_rate opp_raise_rate
    call_rate category prob_win prob_tie prob_lose :
  your_hole state = Some hole → table_card state = Some table →
  Bot.opp_rates (opp_of_state state) = Ok (opp_fold_rate, opp_raise_rate, Some call_rate) →
  hand_category hole table = Ok category →
  monte_carlo_sim rnd hole table 10000 = Ok (prob_win, prob_tie, prob_lose) →
  Bot.decide_action rnd state =
    Ok (Bot.policy category prob_win (-1)%float
          (opp_fold_rate * 2
           + call_rate * (prob_win * 2 + prob_lose * (-2))
           + opp_raise_rate * (prob_win * 2 + prob_lose * (-3)))%float
          (opp_fold_rate * 3
           + call_rate * (prob_win * 3 + prob_lose * (-2))
           + opp_raise_rate * (prob_win * 3 + prob_lose * (-3)))%float
          opp_fold_rate opp_raise_rate).
Proof.
  intros Hh Ht Hr Hc Hm. unfold Bot.decide_action.
  rewrite Hh, Ht. cbn [dict_getitem mbind result_bind].
  rewrite Hr. cbn [mbind result_bind]. rewrite Hc. cbn [mbind result_bind].
  rewrite Hm. reflexivity.
Qed.

(** The decision tree has no other leaves than the three labels. *)
Lemma policy_label category prob_win ev_fold ev_call ev_raise opp_fold_rate opp_raise_rate :
  Bot.policy category prob_win ev_fold ev_call ev_raise opp_fold_rate opp_raise_rate
    ∈ valid_labels.
Proof.
  unfold Bot.policy, valid_labels.
  repeat case_match; rewrite !elem_of_union, !elem_of_singleton; tauto.
Qed.

(** Once an opponent action has been observed the call rate is assigned. *)
Lemma opp_rates_observed (state : State) total :
  well_formed state → total_opp_actions state = Some total → total ≠ 0 →
  ∃ opp_fold_rate opp_raise_rate,
    Bot.opp_rates (opp_of_state state) =
      Ok (opp_fold_rate, opp_raise_rate, Some (1 - opp_fold_rate - opp_raise_rate)%float).
Proof.
  intros Hwf Htot Hne.
  destruct (opp_of_state_well_formed state Hwf) as (f & c & r & Hf & Hc & Hr & Hf0 & Hc0 & Hr0).
  unfold total_opp_actions in Htot. rewrite Hf, Hc, Hr in Htot. cbn in Htot.
  injection Htot as Htot.
  unfold Bot.opp_rates, stats_getitem. rewrite Hf, Hc, Hr.
  cbn [dict_getitem mbind result_bind].
  rewrite bool_decide_eq_false_2 by lia.
  rewrite (int_truediv_fraction f) by lia. cbn [mbind result_bind].
  rewrite (int_truediv_fraction r) by lia. cbn [mbind result_bind]. eauto.
Qed.

(** X15: on every well-formed state with an observed opponent action the
    expected-value bot raises nothing: [decide_action] returns one of the
    three labels. *)
Lemma decide_action_observed_opponent rnd (state : State) total :
  well_formed state → total_opp_actions state = Some total → total ≠ 0 →
  ∃ label, Bot.decide_action rnd state = Ok label ∧ label ∈ valid_labels.
Proof.
  intros Hwf Htot Hne.
  destruct (opp_rates_observed state total Hwf Htot Hne) as (f & r & Hr).
  destruct Hwf as ((c1 & c2 & Hh & H1 & H2) & (t & Ht & Hvt) & _).
  destruct (simulate_default_ok rnd c1 c2 t H1 H2 Hvt) as (pw & pl & pt & Hm).
  eexists. split; [|apply policy_label].
  eapply decide_action_policy; [exact Hh|exact Ht|exact Hr| |exact Hm].
  by apply hand_category_three.
Qed.

(** C4: for category 4 or 5 and a win probability above 0.85 the decision
    tree says RAISE, whatever the opponent rates and the expected values; so
    it does for category 5 and win probability 0.95; and so does
    [decide_action] on every well-formed state with an observed opponent
    action whose hand has category 4 or 5 and whose simulated win probability
    is above 0.85. *)
Theorem policy_strong_hand_raises :
  (∀ (category : Z) (prob_win ev_fold ev_call ev_raise opp_fold_rate opp_raise_rate : float),
     category = 4 ∨ category = 5 → (0.85 <? prob_win)%float = true →
     Bot.policy category prob_win ev_fold ev_call ev_raise opp_fold_rate opp_raise_rate
       = "RAISE")
  ∧ (∀ ev_fold ev_call ev_raise opp_fold_rate opp_raise_rate : float,
     Bot.policy 5 0.95%float ev_fold ev_call ev_raise opp_fold_rate opp_raise_rate
       = "RAISE")
  ∧ (∀ rnd (state : State) total hole table category prob_win second third,
     well_formed state → total_opp_actions state = Some total → total ≠ 0 →
     your_hole state = Some hole → table_card state = Some table →
     hand_category hole table = Ok category → category = 4 ∨ category = 5 →
     monte_carlo_sim rnd hole table 10000 = Ok (prob_win, second, third) →
     (0.85 <? prob_win)%float = true →
     Bot.decide_action rnd state = Ok "RAISE").
Proof.
  assert (Hpol : ∀ (category : Z) (prob_win ev_fold ev_call ev_raise f r : float),
     category = 4 ∨ category = 5 → (0.85 <? prob_win)%float = true →
     Bot.policy category prob_win ev_fold ev_call ev_raise f r = "RAISE").
  { intros category pw ef ec er f r Hcat Hpw. unfold Bot.policy.
    rewrite bool_decide_eq_true_2 by lia. rewrite Hpw, orb_true_r. reflexivity. }
  split; [exact Hpol|]. split.
  - intros. apply Hpol; [by right|]. vm_compute. reflexivity.
  - intros rnd state total hole table category pw pt pl Hwf Htot Hne Hh Ht Hc Hcat Hm Hpw.
    destruct (opp_rates_observed state total Hwf Htot Hne) as (f & r & Hr).
    rewrite (decide_action_policy _ _ _ _ _ _ _ _ _ _ _ Hh Ht Hr Hc Hm).
    f_equal. by apply Hpol.
Qed.

Lemma state_straight_flush_one_fold_well_formed :
  well_formed state_straight_flush_one_fold.
Proof.
  split; [|split; [|split]].
  - exists "AS", "KS". split; [done|]. split; valid_card_tac.
  - exists "QS". split; [done|]. valid_card_tac.
  - intros d [= <-]. exists 1, 0, 0. repeat split; done.
  - intros n [= <-]. done.
Qed.

Lemma policy_strong_hand_raises_witness :
  Bot.policy 4 0.9%float (-1)%float 2%float 1%float 0.5%float 0.5%float = "RAISE"
  ∧ Bot.decide_action rnd_tie_then_wins state_straight_flush_one_fold = Ok "RAISE".
Proof.
  split.
  - apply (proj1 policy_strong_hand_raises); [by left|]. vm_compute. reflexivity.
  - apply (proj2 (proj2 policy_strong_hand_raises) rnd_tie_then_wins
             state_straight_flush_one_fold 1 ["AS"; "KS"] "QS" 5
             0.9999%float (1 - 0.9999 - 0.0001)%float 0.0001%float).
    + exact state_straight_flush_one_fold_well_formed.
    + vm_compute. reflexivity.
    + lia.
    + reflexivity.
    + reflexivity.
    + vm_compute. reflexivity.
    + by right.
    + vm_compute. reflexivity.
    + vm_compute. reflexivity.
Defined.

(** C9: two round states that agree on [your_hole], [table_card] and
    [opponent_stats] get the same outcome of [decide_action] under the same
    random draws, whatever their round numbers and rules: the same decision,
    or the same exception. *)
Theorem decide_action_ignores_round_and_rules rnd (s1 s2 : State) :
  your_hole s1 = your_hole s2 →
  table_card s1 = table_card s2 →
  opponent_stats s1 = opponent_stats s2 →
  Bot.decide_action rnd s1 = Bot.decide_action rnd s2.
Proof.
  intros Hh Ht Ho. unfold Bot.decide_action, opp_of_state.
  rewrite Hh, Ht, Ho. reflexivity.
Qed.

Lemma decide_action_ignores_round_and_rules_witness :
  round state_straight_flush_one_fold ≠ round state_straight_flush_round_400
  ∧ rules state_straight_flush_one_fold ≠ rules state_straight_flush_round_400
  ∧ Bot.decide_action rnd_tie_then_wins state_straight_flush_one_fold
    = Bot.decide_action rnd_tie_then_wins state_straight_flush_round_400.
Proof.
  split; [discriminate|]. split; [discriminate|].
  apply (decide_action_ignores_round_and_rules rnd_tie_then_wins
           state_straight_flush_one_fold state_straight_flush_round_400);
    reflexivity.
Defined.

(** ** The I/O glue *)

(** C8: whatever string the strategy returns, [main] writes an action that
    is one of FOLD, CALL and RAISE: the string itself when it is one of the
    three, and CALL when it is not. *)
Theorem main_emits_valid_label (strip : string → string)
    (json_loads : string → option State) (decide_action : State → result string)
    (stdin returned : string) :
  decide_action (read_state strip json_loads stdin) = Ok returned →
  ∃ out,
    main strip json_loads decide_action stdin = Ok out
    ∧ (action out = "FOLD" ∨ action out = "CALL" ∨ action out = "RAISE")
    ∧ (returned ∈ valid_labels → action out = returned)
    ∧ (returned ∉ valid_labels → action out = "CALL").
Proof.
  intros Hd. unfold main. rewrite Hd. cbn [mbind result_bind].
  eexists. split; [reflexivity|]. cbn [action].
  case_bool_decide as Hv.
  - split; [tauto|]. split; [done|reflexivity].
  - split; [|split; [done|by intros []]].
    unfold valid_labels in Hv. rewrite !elem_of_union, !elem_of_singleton in Hv. tauto.
Qed.

Lemma main_emits_valid_label_witness :
  main (λ s, s) (λ _, Some state_straight_flush_one_fold) (λ _, Ok "ALL-IN") "{}"
    = Ok {| action := "CALL" |}.
Proof.
  destruct (main_emits_valid_label (λ s, s) (λ _, Some state_straight_flush_one_fold)
              (λ _, Ok "ALL-IN") "{}" "ALL-IN" eq_refl)
    as ([a] & Hm & _ & _ & Hcall).
  rewrite Hm. f_equal. cbn in Hcall. rewrite Hcall; [reflexivity|].
  apply (bool_decide_unpack ("ALL-IN" ∉ valid_labels)). vm_compute. exact I.
Defined.

(** ** The band-heuristic policy *)

Lemma template_opp_rates_ok (state : State) :
  well_formed state →
  ∃ opp_fold_rate opp_raise_rate,
    Template.opp_rates (opp_of_state state) = Ok (opp_fold_rate, opp_raise_rate).
Proof.
  intros Hwf.
  destruct (opp_of_state_well_formed state Hwf) as (f & c & r & Hf & Hc & Hr & Hf0 & Hc0 & Hr0).
  unfold Template.opp_rates, stats_getitem. rewrite Hf, Hc, Hr.
  cbn [dict_getitem mbind result_bind].
  case_bool_decide as Htot; [eauto|].
  rewrite (int_truediv_fraction f) by lia. cbn [mbind result_bind].
  rewrite (int_truediv_fraction r) by lia. cbn [mbind result_bind]. eauto.
Qed.

(** C10: in the band-heuristic policy, on every well-formed state whose hand
    is at least a pair [decide_action] returns CALL or RAISE; and whenever it
    returns FOLD, on any state, the hand is a high card. *)
Theorem template_folds_only_high_card :
  (∀ (state : State) hole table category,
     well_formed state →
     your_hole state = Some hole → table_card state = Some table →
     hand_category hole table = Ok category → 1 ≤ category →
     Template.decide_action state = Ok "CALL"
     ∨ Template.decide_action state = Ok "RAISE")
  ∧ (∀ (state : State) hole table,
     your_hole state = Some hole → table_card state = Some table →
     Template.decide_action state = Ok "FOLD" →
     hand_category hole table = Ok 0).
Proof.
  split.
  - intros state hole table category Hwf Hh Ht Hc Hcat.
    destruct (template_opp_rates_ok state Hwf) as (f & r & Hr).
    unfold Template.decide_action. rewrite Hh, Ht. cbn [dict_getitem mbind result_bind].
    rewrite Hc. cbn [mbind result_bind]. rewrite Hr. cbn [mbind result_bind].
    rewrite (bool_decide_eq_false_2 (category = 0)) by lia.
    repeat case_bool_decide; cbn; repeat case_match; try tauto; lia.
  - intros state hole table Hh Ht. unfold Template.decide_action.
    rewrite Hh, Ht. cbn [dict_getitem mbind result_bind].
    destruct (hand_category hole table) as [category|e]; cbn [mbind result_bind]; [|done].
    destruct (Template.opp_rates (opp_of_state state)) as [[f r]|e];
      cbn [mbind result_bind]; [|done].
    repeat case_bool_decide; cbn; repeat case_match; try done; congruence.
Qed.

Example template_folds_high_card :
  Template.decide_action state_high_card_aggressive_opponent = Ok "FOLD".
Proof. vm_compute. reflexivity. Qed.

Lemma template_folds_only_high_card_witness :
  (Template.decide_action state_pair_aggressive_opponent = Ok "CALL"
   ∨ Template.decide_action state_pair_aggressive_opponent = Ok "RAISE")
  ∧ hand_category ["2C"; "5D"] "9H" = Ok 0.
Proof.
  split.
  - apply (proj1 template_folds_only_high_card state_pair_aggressive_opponent
             ["9C"; "9D"] "2H" 1).
    + split; [|split; [|split]].
      * exists "9C", "9D". split; [reflexivity|]. split; valid_card_tac.
      * exists "2H". split; [reflexivity|]. valid_card_tac.
      * intros d [= <-]. exists 0, 1, 9. repeat split; done.
      * intros n [= <-]. done.
    + reflexivity.
    + reflexivity.
    + vm_compute. reflexivity.
    + lia.
  - apply (proj2 template_folds_only_high_card state_high_card_aggressive_opponent
             ["2C"; "5D"] "9H"); [reflexivity|reflexivity|].
    vm_compute. reflexivity.
Defined.

(** * Further properties of the code *)

(** ** The card model *)

Lemma RANK_VALUE_lookup (r : ascii) (v : Z) :
  RANK_VALUE !! r = Some v ↔
  ∃ i : nat, String.list_ascii_of_string RANKS !! i = Some r ∧ v = Z.of_nat i + 2.
Proof.
  unfold RANK_VALUE. rewrite <- elem_of_list_to_map.
  - rewrite elem_of_lookup_imap. split.
    + intros (i & y & [= -> ->] & Hi). eauto.
    + intros (i & Hi & ->). eauto.
  - apply (bool_decide_unpack (NoDup _)). vm_compute. exact I.
Qed.

Lemma RANK_VALUE_None (r : ascii) :
  r ∉ String.list_ascii_of_string RANKS → RANK_VALUE !! r = None.
Proof.
  intros Hr. destruct (RANK_VALUE !! r) as [v|] eqn:E; [|done].
  apply RANK_VALUE_lookup in E as (i & Hi & _). destruct Hr.
  by eapply list_elem_of_lookup_2.
Qed.

(** X1: [parse_card] succeeds exactly on the strings of at least two characters
    whose first character is a rank symbol: the rank value is the position of
    the symbol in [RANKS] plus 2, the suit is the second character, whatever
    it is, and the characters after it are ignored. The empty string and a
    lone rank symbol raise IndexError, any other first character raises
    KeyError with that character. *)
Theorem parse_card_cases :
  (∀ (card_str : string) (v : Z) (suit : ascii),
     parse_card card_str = Ok (v, suit) ↔
     ∃ (i : nat) (r : ascii) (rest : string),
       String.list_ascii_of_string RANKS !! i = Some r
       ∧ card_str = String r (String suit rest) ∧ v = Z.of_nat i + 2)
  ∧ parse_card EmptyString = Raise IndexError
  ∧ (∀ (r : ascii) (rest : string),
     r ∉ String.list_ascii_of_string RANKS →
     parse_card (String r rest) = Raise (KeyError (String r EmptyString)))
  ∧ (∀ r : ascii,
     r ∈ String.list_ascii_of_string RANKS →
     parse_card (String r EmptyString) = Raise IndexError).
Proof.
  split; [|split; [reflexivity|split]].
  - intros card_str v suit. unfold parse_card, str_getitem, rank_value_getitem. split.
    + destruct card_str as [|r [|s rest]]; cbn [String.get mbind result_bind]; [done| |].
      * destruct (RANK_VALUE !! r); cbn [mbind result_bind]; done.
      * destruct (RANK_VALUE !! r) as [v'|] eqn:E; cbn [mbind result_bind]; [|done].
        intros [= -> ->]. apply RANK_VALUE_lookup in E as (i & Hi & ->).
        by exists i, r, rest.
    + intros (i & r & rest & Hi & -> & ->). cbn [String.get mbind result_bind].
      by rewrite (proj2 (RANK_VALUE_lookup r (Z.of_nat i + 2)) (ex_intro _ i (conj Hi eq_refl))).
  - intros r rest Hr. unfold parse_card, str_getitem, rank_value_getitem.
    cbn [String.get mbind result_bind]. by rewrite RANK_VALUE_None.
  - intros r Hr. apply list_elem_of_lookup_1 in Hr as [i Hi].
    unfold parse_card, str_getitem, rank_value_getitem. cbn [String.get mbind result_bind].
    by rewrite (proj2 (RANK_VALUE_lookup r (Z.of_nat i + 2)) (ex_intro _ i (conj Hi eq_refl))).
Qed.

Lemma parse_card_cases_witness :
  parse_card "TD extra" = Ok (10, "D"%char)
  ∧ parse_card "xS" = Raise (KeyError "x")
  ∧ parse_card "K" = Raise IndexError.
Proof.
  split; [|split].
  - apply (proj1 parse_card_cases "TD extra" 10 "D"%char).
    exists 8%nat, "T"%char, " extra". repeat split; reflexivity.
  - apply (proj1 (proj2 (proj2 parse_card_cases)) "x"%char "S").
    apply (bool_decide_unpack (_ ∉ _)). vm_compute. exact I.
  - apply (proj2 (proj2 (proj2 parse_card_cases)) "K"%char).
    apply (bool_decide_unpack (_ ∈ _)). vm_compute. exact I.
Defined.

Lemma parse_card_token (i : nat) (r s : ascii) :
  String.list_ascii_of_string RANKS !! i = Some r →
  parse_card (String r (String s EmptyString)) = Ok (Z.of_nat i + 2, s).
Proof.
  intros Hi. unfold parse_card, str_getitem, rank_value_getitem.
  cbn [String.get mbind result_bind].
  by rewrite (proj2 (RANK_VALUE_lookup r (Z.of_nat i + 2)) (ex_intro _ i (conj Hi eq_refl))).
Qed.

Lemma NoDup_RANKS : NoDup (String.list_ascii_of_string RANKS).
Proof. apply (bool_decide_unpack (NoDup _)). vm_compute. exact I. Qed.

(** X2: building a card token and parsing it is a round trip: the deck lists the
    cards rank by rank, the card at position [4 i + j] is the [i]-th rank
    symbol followed by the [j]-th suit symbol, and it parses to the rank
    value [i + 2] and that suit. So no two valid tokens parse to the same
    pair. *)
Theorem card_token_round_trip :
  (∀ (i j : nat) (r s : ascii),
     String.list_ascii_of_string RANKS !! i = Some r →
     String.list_ascii_of_string SUITS !! j = Some s →
     deck !! (4 * i + j)%nat = Some (String r (String s EmptyString))
     ∧ parse_card (String r (String s EmptyString)) = Ok (Z.of_nat i + 2, s))
  ∧ (∀ c c' : string,
     valid_card c → valid_card c' → parse_card c = parse_card c' → c = c').
Proof.
  split.
  - intros i j r s Hi Hj. split; [|by apply parse_card_token].
    do 13 (destruct i as [|i];
      [do 4 (destruct j as [|j]; [by injection Hi as <-; injection Hj as <-|]);
       done|]).
    done.
  - intros c c' (r & s & Hr & _ & ->) (r' & s' & Hr' & _ & ->).
    apply list_elem_of_lookup_1 in Hr as [i Hi].
    apply list_elem_of_lookup_1 in Hr' as [i' Hi'].
    rewrite (parse_card_token i r s Hi), (parse_card_token i' r' s' Hi').
    intros [= Hii ->]. assert (i = i') as -> by lia.
    rewrite Hi in Hi'. by injection Hi' as ->.
Qed.

Lemma card_token_round_trip_witness :
  deck !! 35%nat = Some "TS" ∧ parse_card "TS" = Ok (10, "S"%char)
  ∧ parse_card "9C" ≠ parse_card "9D".
Proof.
  pose proof (proj1 card_token_round_trip 8%nat 3%nat "T"%char "S"%char eq_refl eq_refl)
    as [Hd Hp].
  split; [exact Hd|]. split; [exact Hp|].
  assert (H1 : valid_card "9C") by valid_card_tac.
  assert (H2 : valid_card "9D") by valid_card_tac.
  intros E. pose proof (proj2 card_token_round_trip "9C" "9D" H1 H2 E) as E'.
  discriminate E'.
Defined.

(** ** The straight test *)

Lemma sorted_length l : length (sorted l) = length l.
Proof. apply Permutation_length, sorted_Permutation. Qed.

Lemma sorted_two (a b : Z) : sorted [a; b] = [Z.min a b; Z.max a b].
Proof.
  apply sorted_unique.
  - repeat constructor. lia.
  - destruct (Z.le_ge_cases a b).
    + by rewrite Z.min_l, Z.max_r.
    + rewrite Z.min_r, Z.max_l by done. apply perm_swap.
Qed.

Lemma is_straight_3_long (l : list Z) :
  (3 ≤ length l)%nat → ∃ r, is_straight_3 l = Ok r.
Proof.
  intros Hlen. unfold is_straight_3. rewrite <- sorted_length in Hlen.
  destruct (sorted l) as [|r0 [|r1 [|r2 r]]]; cbn in Hlen; try lia.
  cbn. repeat (case_bool_decide; cbn); eauto.
Qed.

Lemma is_straight_3_two (a b : Z) :
  is_straight_3 [a; b] =
    if bool_decide (Z.min a b + 1 = Z.max a b) then Raise IndexError
    else Ok (false, 0).
Proof.
  unfold is_straight_3. rewrite sorted_two.
  assert (Hset : bool_decide (list_to_set [Z.min a b; Z.max a b]
                              = ({[ 14; 2; 3 ]} : gset Z)) = false).
  { apply bool_decide_eq_false_2. intros Hset.
    assert (Hx : ∀ x : Z, x ∈ [Z.min a b; Z.max a b] ↔ x = 14 ∨ x = 2 ∨ x = 3).
    { intros x. rewrite <- (elem_of_list_to_set (C:=gset Z)), Hset.
      rewrite !elem_of_union, !elem_of_singleton. tauto. }
    pose proof (proj2 (Hx 14)) as H14. pose proof (proj2 (Hx 2)) as H2.
    pose proof (proj2 (Hx 3)) as H3.
    rewrite !elem_of_cons, !elem_of_nil in *. lia. }
  rewrite Hset. cbn. by destruct (bool_decide (Z.min a b + 1 = Z.max a b)).
Qed.

(** X3: [is_straight_3] off the three-card case. It raises IndexError on a list
    of fewer than two ranks, and on two ranks that are consecutive (the test
    then reads a third); two ranks that are not consecutive give
    [(false, 0)]; three ranks or more never raise. *)
Theorem is_straight_3_by_length :
  is_straight_3 [] = Raise IndexError
  ∧ (∀ a : Z, is_straight_3 [a] = Raise IndexError)
  ∧ (∀ a b : Z,
     is_straight_3 [a; b] =
       if bool_decide (Z.min a b + 1 = Z.max a b) then Raise IndexError
       else Ok (false, 0))
  ∧ (∀ l : list Z, (3 ≤ length l)%nat → ∃ r, is_straight_3 l = Ok r).
Proof.
  split; [reflexivity|]. split; [reflexivity|].
  split; [apply is_straight_3_two|apply is_straight_3_long].
Qed.

Lemma is_straight_3_by_length_witness :
  is_straight_3 [7; 6] = Raise IndexError
  ∧ is_straight_3 [2; 9] = Ok (false, 0)
  ∧ ∃ r, is_straight_3 [2; 3; 14; 2] = Ok r.
Proof.
  split; [|split].
  - exact (proj1 (proj2 (proj2 is_straight_3_by_length)) 7 6).
  - exact (proj1 (proj2 (proj2 is_straight_3_by_length)) 2 9).
  - apply (proj2 (proj2 (proj2 is_straight_3_by_length)) [2; 3; 14; 2]). cbn. lia.
Defined.

(** X4: the order of the ranks is immaterial to [is_straight_3], for any number
    of ranks: two lists that are permutations of each other get the same
    result, or the same exception. *)
Theorem is_straight_3_Permutation (l l' : list Z) :
  l ≡ₚ l' → is_straight_3 l = is_straight_3 l'.
Proof. intros Hp. unfold is_straight_3. by rewrite (sorted_perm_eq l l' Hp). Qed.

Lemma is_straight_3_Permutation_witness :
  is_straight_3 [5; 14; 3; 4] = is_straight_3 [14; 5; 3; 4].
Proof. apply is_straight_3_Permutation. apply perm_swap. Defined.

(** X5: a straight has three different ranks: when [is_straight_3] says yes on
    three ranks, no two of them are equal, so a hand is never a straight and
    a pair, or a straight and three of a rank. *)
Theorem straight_ranks_distinct (a b c high : Z) :
  is_straight_3 [a; b; c] = Ok (true, high) → a ≠ b ∧ b ≠ c ∧ a ≠ c.
Proof.
  destruct (sorted3_exists a b c) as (r0 & r1 & r2 & Hp & Hle).
  rewrite (is_straight_3_sorted _ _ _ _ _ _ Hp Hle).
  apply Permutation3_inv in Hp.
  repeat case_bool_decide; intros [=]; lia.
Qed.

Lemma straight_ranks_distinct_witness : (12 : Z) ≠ 13 ∧ (13 : Z) ≠ 14 ∧ (12 : Z) ≠ 14.
Proof.
  apply (straight_ranks_distinct 12 13 14 14). vm_compute. reflexivity.
Defined.

(** ** The classifier off the valid three-card hand *)

Lemma classify_range (parsed : list (Z * ascii)) (k : Z) :
  classify parsed = Ok k → 0 ≤ k ≤ 5.
Proof.
  unfold classify. destruct (is_straight_3 parsed.*1) as [[straight high]|e]; cbn; [|done].
  repeat case_match; intros [= <-]; lia.
Qed.

Lemma hand_category_range hole table (k : Z) :
  hand_category hole table = Ok k → 0 ≤ k ≤ 5.
Proof.
  unfold hand_category.
  destruct (mapM parse_card (hole ++ [table])) as [parsed|e] eqn:E; cbn; [|done].
  apply classify_range.
Qed.

Lemma mapM_result_cons {A B} (f : A → result B) (x : A) (l : list A) :
  mapM f (x :: l) = y ← f x; k ← mapM f l; Ok (y :: k).
Proof. reflexivity. Qed.

Lemma mapM_parse_first_error (pre post : list string) (c : string) (e : exn) :
  Forall (λ x, ∃ p, parse_card x = Ok p) pre → parse_card c = Raise e →
  mapM parse_card (pre ++ c :: post) = Raise e.
Proof.
  intros Hpre Hc. induction Hpre as [|x pre [p Hx] _ IH].
  - cbn [app]. by rewrite mapM_result_cons, Hc.
  - cbn [app]. by rewrite mapM_result_cons, Hx, IH.
Qed.

(** X6: a token that does not parse makes [hand_category] raise: the exception
    is that of the first such token among the hole cards, in their order, and
    then the table card. *)
Theorem hand_category_first_bad_card (hole pre post : list string)
    (table c : string) (e : exn) :
  hole ++ [table] = pre ++ c :: post →
  Forall (λ x, ∃ p, parse_card x = Ok p) pre →
  parse_card c = Raise e →
  hand_category hole table = Raise e.
Proof.
  intros Hsplit Hpre Hc. unfold hand_category.
  by rewrite Hsplit, (mapM_parse_first_error pre post c e Hpre Hc).
Qed.

Lemma hand_category_first_bad_card_witness :
  hand_category ["AS"; "1S"] "" = Raise (KeyError "1").
Proof.
  apply (hand_category_first_bad_card ["AS"; "1S"] ["AS"] [""] "" "1S" (KeyError "1")).
  - reflexivity.
  - constructor; [|constructor]. exists (14, "S"%char). vm_compute. reflexivity.
  - vm_compute. reflexivity.
Defined.

Lemma two_of_two_ranks (a b : Z) : 2 ∈ values (count_ranks [a; b]) ↔ a = b.
Proof.
  rewrite elem_of_values_count_ranks by done. split.
  - intros (v & Hv). cbn in Hv. repeat case_decide; lia.
  - intros ->. exists b. cbn. repeat case_decide; lia.
Qed.

Lemma three_of_two_ranks (a b : Z) : 3 ∉ values (count_ranks [a; b]).
Proof.
  rewrite elem_of_values_count_ranks by done.
  intros (v & Hv). cbn in Hv. repeat case_decide; lia.
Qed.

Lemma flush_two (s1 s2 : ascii) :
  size (list_to_set [s1; s2] : gset ascii) = 1%nat ↔ s1 = s2.
Proof.
  split.
  - intros Hs.
    apply (size_singleton_inv _ _ _ Hs); rewrite elem_of_list_to_set, !elem_of_cons; tauto.
  - intros ->.
    assert (list_to_set [s2; s2] = ({[ s2 ]} : gset ascii)) as ->.
    { apply set_eq. intros x.
      rewrite elem_of_list_to_set, !elem_of_cons, elem_of_nil, elem_of_singleton. tauto. }
    apply size_singleton.
Qed.

(** X7: [hand_category] does not check that it gets three cards. With no hole
    card it raises IndexError. With one hole card it judges the two cards:
    IndexError when their ranks are consecutive, else 2 for one suit, 1 for
    one rank, 0 otherwise. With two hole cards or more, all valid, it returns
    a category from 0 to 5. *)
Theorem hand_category_by_card_count :
  (∀ table : string, valid_card table → hand_category [] table = Raise IndexError)
  ∧ (∀ c table : string,
     valid_card c → valid_card table →
     let '(a, s1) := parsed_of c in
     let '(b, s2) := parsed_of table in
     hand_category [c] table =
       if bool_decide (Z.min a b + 1 = Z.max a b) then Raise IndexError
       else if bool_decide (s1 = s2) then Ok 2
       else if bool_decide (a = b) then Ok 1
       else Ok 0)
  ∧ (∀ (hole : list string) (table : string),
     Forall valid_card hole → valid_card table → (2 ≤ length hole)%nat →
     ∃ k, hand_category hole table = Ok k ∧ 0 ≤ k ≤ 5).
Proof.
  split; [|split].
  - intros table Ht. by rewrite hand_category_valid.
  - intros c table Hc Ht. rewrite hand_category_valid by (by repeat constructor).
    cbn [app fmap list_fmap]. destruct (parsed_of c) as [a s1], (parsed_of table) as [b s2].
    unfold classify. cbn [fmap list_fmap fst snd].
    rewrite (is_straight_3_two a b).
    rewrite (bool_decide_ext _ _ (flush_two s1 s2)).
    rewrite (bool_decide_ext _ _ (two_of_two_ranks a b)).
    rewrite (bool_decide_eq_false_2 _ (three_of_two_ranks a b)).
    destruct (bool_decide (Z.min a b + 1 = Z.max a b)); cbn; [done|].
    by destruct (bool_decide (s1 = s2)).
  - intros hole table Hh Ht Hlen. rewrite hand_category_valid by done.
    destruct (is_straight_3_long (parsed_of <$> hole ++ [table]).*1) as [[straight high] Hs].
    { rewrite !length_fmap, length_app. cbn. lia. }
    assert (Hk : ∃ k, classify (parsed_of <$> hole ++ [table]) = Ok k).
    { unfold classify. rewrite Hs. cbn. repeat case_match; eauto. }
    destruct Hk as [k Hk]. exists k. split; [done|]. by eapply classify_range.
Qed.

Lemma hand_category_by_card_count_witness :
  hand_category [] "9H" = Raise IndexError
  ∧ hand_category ["2C"] "5C" = Ok 2
  ∧ hand_category ["2C"] "3D" = Raise IndexError
  ∧ ∃ k, hand_category ["2C"; "3D"; "4H"; "9S"] "KS" = Ok k ∧ 0 ≤ k ≤ 5.
Proof.
  assert (H2C : valid_card "2C") by valid_card_tac.
  assert (H5C : valid_card "5C") by valid_card_tac.
  assert (H3D : valid_card "3D") by valid_card_tac.
  assert (H9H : valid_card "9H") by valid_card_tac.
  assert (HKS : valid_card "KS") by valid_card_tac.
  split; [|split; [|split]].
  - exact (proj1 hand_category_by_card_count "9H" H9H).
  - exact (proj1 (proj2 hand_category_by_card_count) "2C" "5C" H2C H5C).
  - exact (proj1 (proj2 hand_category_by_card_count) "2C" "3D" H2C H3D).
  - apply (proj2 (proj2 hand_category_by_card_count) ["2C"; "3D"; "4H"; "9S"] "KS");
      [|exact HKS|cbn; lia].
    repeat constructor; valid_card_tac.
Defined.

Lemma spec_straight_distinct (a b c : Z) :
  spec_straight a b c = true → a ≠ b ∧ b ≠ c ∧ a ≠ c.
Proof.
  destruct (sorted3_exists a b c) as (r0 & r1 & r2 & Hp & Hle).
  rewrite (spec_straight_sorted _ _ _ _ _ _ Hp Hle).
  apply Permutation3_inv in Hp.
  repeat case_bool_decide; cbn; intros [=]; lia.
Qed.

Lemma parsed_of_inj (c c' : string) :
  valid_card c → valid_card c' → parsed_of c = parsed_of c' → c = c'.
Proof.
  intros (r & s & Hr & _ & ->) (r' & s' & Hr' & _ & ->).
  apply list_elem_of_lookup_1 in Hr as [i Hi].
  apply list_elem_of_lookup_1 in Hr' as [i' Hi'].
  unfold parsed_of. rewrite (parse_card_token i r s Hi), (parse_card_token i' r' s' Hi').
  intros [= Hii ->]. assert (i = i') as -> by lia.
  rewrite Hi in Hi'. by injection Hi' as ->.
Qed.

(** X8: on three different cards of the deck the categories are six disjoint
    conditions, whatever the order of the tests: 5 is straight and flush, 4
    is three equal ranks, 3 is a straight that is no flush, 2 is a flush that
    is no straight, 1 is exactly two equal ranks, and 0 is none of these. A
    straight or a flush of different cards has no repeated rank. *)
Theorem category_of_distinct_cards (c1 c2 t : string) :
  valid_card c1 → valid_card c2 → valid_card t → NoDup [c1; c2; t] →
  let '(a, s1) := parsed_of c1 in
  let '(b, s2) := parsed_of c2 in
  let '(c, s3) := parsed_of t in
  let straight := spec_straight a b c = true in
  let flush := s1 = s2 ∧ s2 = s3 in
  let trips := a = b ∧ b = c in
  let pair := (a = b ∨ b = c ∨ a = c) ∧ ¬ (a = b ∧ b = c) in
  ∃ k, hand_category [c1; c2] t = Ok k
     ∧ (k = 5 ↔ straight ∧ flush)
     ∧ (k = 4 ↔ trips)
     ∧ (k = 3 ↔ straight ∧ ¬ flush)
     ∧ (k = 2 ↔ flush ∧ ¬ straight)
     ∧ (k = 1 ↔ pair)
     ∧ (k = 0 ↔ ¬ straight ∧ ¬ flush ∧ ¬ trips ∧ ¬ pair).
Proof.
  intros H1 H2 Ht Hnd.
  pose proof (parsed_of_inj c1 c2 H1 H2) as I12.
  pose proof (parsed_of_inj c2 t H2 Ht) as I23.
  pose proof (parsed_of_inj c1 t H1 Ht) as I13.
  assert (c1 ≠ c2 ∧ c2 ≠ t ∧ c1 ≠ t) as (N12 & N23 & N13).
  { apply NoDup_cons in Hnd as [Hn1 Hnd]. apply NoDup_cons in Hnd as [Hn2 _].
    apply not_elem_of_cons in Hn1 as [? Hn1]. apply not_elem_of_cons in Hn1 as [? _].
    apply not_elem_of_cons in Hn2 as [? _]. done. }
  rewrite (hand_category_three c1 c2 t H1 H2 Ht).
  destruct (parsed_of c1) as [a s1], (parsed_of c2) as [b s2], (parsed_of t) as [c s3].
  cbn zeta. eexists. split; [reflexivity|].
  unfold spec_category, spec_flush. cbn [fst snd].
  rewrite !spec_appears_values by done.
  rewrite (bool_decide_ext _ _ (three_of_a_rank a b c)).
  rewrite (bool_decide_ext _ _ (two_of_a_rank a b c)).
  pose proof (spec_straight_distinct a b c) as Hsd.
  assert (Hfd : s1 = s2 ∧ s2 = s3 → a ≠ b ∧ b ≠ c ∧ a ≠ c).
  { intros [-> ->]. repeat split; intros ->; [apply N12, I12|apply N23, I23|apply N13, I13];
      reflexivity. }
  destruct (spec_straight a b c); repeat case_bool_decide; cbn;
    repeat split; try (intros; lia); try (intros; done); try tauto; try naive_solver.
Qed.

Lemma category_of_distinct_cards_witness :
  ∃ k, hand_category ["9C"; "9D"] "2H" = Ok k ∧ (k = 4 ↔ 9 = 9 ∧ 9 = 2).
Proof.
  assert (H1 : valid_card "9C") by valid_card_tac.
  assert (H2 : valid_card "9D") by valid_card_tac.
  assert (H3 : valid_card "2H") by valid_card_tac.
  assert (Hnd : NoDup ["9C"; "9D"; "2H"]).
  { apply (bool_decide_unpack (NoDup _)). vm_compute. exact I. }
  pose proof (category_of_distinct_cards "9C" "9D" "2H" H1 H2 H3 Hnd) as H.
  change (parsed_of "9C") with (9, "C"%char) in H.
  change (parsed_of "9D") with (9, "D"%char) in H.
  change (parsed_of "2H") with (2, "H"%char) in H.
  cbn beta iota zeta in H.
  destruct H as (k & Hk & _ & H4 & _).
  exists k. split; [exact Hk|exact H4].
Defined.

(** ** The pool of the simulator *)

Lemma elem_of_available (hole : list string) (table c : string) :
  c ∈ available hole table ↔ valid_card c ∧ c ∉ hole ++ [table].
Proof.
  unfold available. rewrite list_elem_of_filter, valid_card_deck. tauto.
Qed.

Lemma NoDup_available hole table : NoDup (available hole table).
Proof. apply NoDup_filter, NoDup_deck. Qed.

(** X9: the pool holds every card of the deck but the known ones, once each: the
    known cards being valid and different from each other, the pool and the
    known cards together count 52, and the pool of a hand of two hole cards
    and a table card counts 49. *)
Theorem available_exact (hole : list string) (table : string) :
  Forall valid_card (hole ++ [table]) → NoDup (hole ++ [table]) →
  NoDup (available hole table)
  ∧ (∀ c, c ∈ available hole table ↔ valid_card c ∧ c ∉ hole ++ [table])
  ∧ (length (available hole table) + length (hole ++ [table]) = 52)%nat
  ∧ (length hole = 2%nat → length (available hole table) = 49%nat).
Proof.
  intros Hvalid Hnd.
  split; [apply NoDup_available|]. split; [intros c; apply elem_of_available|].
  assert (Hlen : (length (available hole table) + length (hole ++ [table]) = 52)%nat).
  { unfold available. set (known := hole ++ [table]) in *.
    set (P := λ card : string, card ∉ known).
    pose proof (filter_app_complement P deck) as Hp.
    apply Permutation_length in Hp. rewrite length_app, length_deck in Hp.
    assert (Hk : filter (λ x, ¬ P x) deck ≡ₚ known).
    { apply NoDup_Permutation; [apply NoDup_filter, NoDup_deck|done|].
      intros x. rewrite list_elem_of_filter. unfold P. split.
      - intros [Hx _]. by destruct (decide (x ∈ known)).
      - intros Hx. split; [tauto|]. apply valid_card_deck.
        rewrite Forall_forall in Hvalid. by apply Hvalid. }
    apply Permutation_length in Hk. lia. }
  split; [exact Hlen|]. intros H2. rewrite length_app, H2 in Hlen. cbn in Hlen. lia.
Qed.

Lemma available_exact_witness : length (available ["AS"; "KS"] "QS") = 49%nat.
Proof.
  apply (available_exact ["AS"; "KS"] "QS"); [| |reflexivity].
  - repeat constructor; valid_card_tac.
  - apply (bool_decide_unpack (NoDup _)). vm_compute. exact I.
Defined.

Lemma NoDup_lookup_delete {A} (l : list A) (i : nat) (x : A) :
  NoDup l → l !! i = Some x → x ∉ delete i l.
Proof.
  intros Hnd Hx. rewrite (delete_Permutation l i x Hx) in Hnd.
  by apply NoDup_cons in Hnd as [? _].
Qed.

(** X10: the opponent hand that is drawn in a trial is two different valid cards,
    neither of them a hole card of the player or the table card. *)
Theorem opponent_draw_fresh (choice : nat * nat) (hole : list string) (table : string)
    (opp_hole : list string) :
  sample2 choice (available hole table) = Ok opp_hole →
  ∃ x y, opp_hole = [x; y] ∧ x ≠ y
       ∧ valid_card x ∧ valid_card y
       ∧ (x ∉ hole ++ [table]) ∧ (y ∉ hole ++ [table]).
Proof.
  unfold sample2. set (pool := available hole table).
  destruct (Nat.ltb_spec (length pool) 2) as [|Hlen]; [done|].
  unfold getitem.
  destruct (pool !! (choice.1 mod length pool)%nat) as [x|] eqn:Hx; cbn; [|done].
  destruct (delete (choice.1 mod length pool)%nat pool
              !! (choice.2 mod (length pool - 1))%nat) as [y|] eqn:Hy; cbn; [|done].
  intros [= <-]. exists x, y. split; [done|].
  pose proof (NoDup_lookup_delete pool _ x (NoDup_available hole table) Hx) as Hxy.
  apply list_elem_of_lookup_2 in Hy as Hy'.
  apply list_elem_of_delete_inv in Hy' as Hy''.
  apply list_elem_of_lookup_2 in Hx as Hx'.
  apply elem_of_available in Hx' as [? ?]. apply elem_of_available in Hy'' as [? ?].
  repeat split; try done. by intros ->.
Qed.

Lemma opponent_draw_fresh_witness :
  ∃ x y, (["TS"; "JS"] = [x; y]) ∧ x ≠ y ∧ x ∉ ["AS"; "KS"; "QS"].
Proof.
  destruct (opponent_draw_fresh (rnd_ties 0%nat) ["AS"; "KS"] "QS" ["TS"; "JS"])
    as (x & y & E & Hxy & _ & _ & Hx & _).
  { vm_compute. reflexivity. }
  exists x, y. split; [exact E|]. split; [exact Hxy|exact Hx].
Defined.

(** ** The simulator at its edges *)

(** X11: when fewer than two cards are left to draw from, the first trial raises
    ValueError, as [sample] does. *)
Theorem monte_carlo_sim_small_pool (rnd : Rng) (hole : list string) (table : string)
    (n_simulations k : Z) :
  hand_category hole table = Ok k →
  (length (available hole table) < 2)%nat → 0 < n_simulations →
  monte_carlo_sim rnd hole table n_simulations = Raise ValueError.
Proof.
  intros Hk Hlen Hn. unfold monte_carlo_sim, simulate. rewrite Hk. cbn [mbind result_bind].
  destruct (Z.to_nat n_simulations) as [|m] eqn:E; [lia|].
  cbn [seq run_trials]. unfold trial, sample2.
  destruct (Nat.ltb_spec (length (available hole table)) 2) as [_|]; [|lia].
  reflexivity.
Qed.

(** X12: with no trial to run the counters stay at zero and the random source is
    not read: a trial count of 0 raises ZeroDivisionError, and a negative one
    returns (−0.0, 1.0, −0.0), the quotient of 0 by a negative number being
    the negative zero. *)
Theorem monte_carlo_sim_no_trial (rnd : Rng) (hole : list string) (table : string)
    (n_simulations k : Z) :
  hand_category hole table = Ok k → n_simulations ≤ 0 →
  simulate rnd hole table n_simulations = Ok (0, 0)
  ∧ monte_carlo_sim rnd hole table n_simulations =
      if bool_decide (n_simulations = 0) then Raise ZeroDivisionError
      else Ok (-0, 1, -0)%float.
Proof.
  intros Hk Hn.
  assert (Hs : simulate rnd hole table n_simulations = Ok (0, 0)).
  { unfold simulate. rewrite Hk. cbn [mbind result_bind].
    by replace (Z.to_nat n_simulations) with 0%nat by lia. }
  split; [exact Hs|]. unfold monte_carlo_sim. rewrite Hs.
  cbn [mbind result_bind]. case_bool_decide as H0.
  - subst. reflexivity.
  - rewrite int_truediv_zero_negative by lia. reflexivity.
Qed.

Lemma monte_carlo_sim_small_pool_witness :
  available hole_of_fifty "AH" = ["AS"]
  ∧ monte_carlo_sim rnd_ties hole_of_fifty "AH" 1 = Raise ValueError.
Proof.
  assert (Ha : available hole_of_fifty "AH" = ["AS"]) by (vm_compute; reflexivity).
  split; [exact Ha|].
  apply (monte_carlo_sim_small_pool rnd_ties hole_of_fifty "AH" 1 4).
  - vm_compute. reflexivity.
  - rewrite Ha. cbn. lia.
  - lia.
Defined.

Lemma monte_carlo_sim_no_trial_witness :
  monte_carlo_sim rnd_ties ["AS"; "KS"] "QS" 0 = Raise ZeroDivisionError
  ∧ monte_carlo_sim rnd_ties ["AS"; "KS"] "QS" (-5) = Ok (-0, 1, -0)%float.
Proof.
  assert (Hk : hand_category ["AS"; "KS"] "QS" = Ok 5) by (vm_compute; reflexivity).
  split.
  - exact (proj2 (monte_carlo_sim_no_trial rnd_ties ["AS"; "KS"] "QS" 0 5 Hk ltac:(lia))).
  - exact (proj2 (monte_carlo_sim_no_trial rnd_ties ["AS"; "KS"] "QS" (-5) 5 Hk ltac:(lia))).
Defined.

Lemma trial_extremes my_category pool table choice (wins ties : Z) :
  Forall valid_card pool → (2 ≤ length pool)%nat → valid_card table →
  ∃ wins' ties',
    trial my_category pool table choice (wins, ties) = Ok (wins', ties')
    ∧ (5 ≤ my_category → wins' + ties' = wins + ties + 1)
    ∧ (my_category ≤ 0 → wins' = wins).
Proof.
  intros Hpool Hlen Ht. unfold trial.
  destruct (sample2_ok choice pool Hlen) as (x & y & -> & Hx & Hy). cbn.
  rewrite Forall_forall in Hpool.
  rewrite hand_category_three by auto. cbn.
  pose proof (spec_category_range (parsed_of x) (parsed_of y) (parsed_of table)).
  repeat case_bool_decide; eexists _, _; (split; [reflexivity|lia]).
Qed.

Lemma run_trials_extremes rnd my_category pool table range (wins ties : Z) :
  Forall valid_card pool → (2 ≤ length pool)%nat → valid_card table →
  ∃ wins' ties',
    run_trials rnd my_category pool table range (wins, ties) = Ok (wins', ties')
    ∧ (5 ≤ my_category → wins' + ties' = wins + ties + Z.of_nat (length range))
    ∧ (my_category ≤ 0 → wins' = wins).
Proof.
  intros Hpool Hlen Ht. revert wins ties.
  induction range as [|k range IH]; intros wins ties; cbn [run_trials].
  - exists wins, ties. cbn. split; [done|]. split; lia.
  - destruct (trial_extremes my_category pool table (rnd k) wins ties Hpool Hlen Ht)
      as (w1 & t1 & -> & H5 & H0). cbn.
    destruct (IH w1 t1) as (w2 & t2 & -> & H5' & H0').
    exists w2, t2. split; [done|]. cbn [length]. split; intros; [rewrite H5'|]; lia.
Qed.

(** X13: the strongest hand loses no trial and the weakest wins none: with a
    straight flush the win and tie counts add up to the trial count, and with
    a high card the win count is 0, whatever is drawn. *)
Theorem simulate_extremes rnd (c1 c2 table : string) (n_simulations wins ties : Z) :
  valid_card c1 → valid_card c2 → valid_card table → 0 ≤ n_simulations →
  simulate rnd [c1; c2] table n_simulations = Ok (wins, ties) →
  (hand_category [c1; c2] table = Ok 5 → wins + ties = n_simulations)
  ∧ (hand_category [c1; c2] table = Ok 0 → wins = 0).
Proof.
  intros H1 H2 Ht Hn. unfold simulate.
  destruct (hand_category [c1; c2] table) as [k|e] eqn:Hk; cbn [mbind result_bind]; [|done].
  pose proof (available_length [c1; c2] table) as Hlen.
  rewrite length_app in Hlen. cbn [length] in Hlen.
  edestruct (run_trials_extremes rnd k) as (w & t & -> & H5 & H0);
    [apply available_valid| |exact Ht|].
  { lia. }
  rewrite length_seq in H5. intros [= <- <-]. split; intros [= ->]; lia.
Qed.

Lemma simulate_extremes_witness :
  simulate rnd_tie_then_wins ["AS"; "KS"] "QS" 10 = Ok (9, 1) ∧ 9 + 1 = 10.
Proof.
  assert (H1 : valid_card "AS") by valid_card_tac.
  assert (H2 : valid_card "KS") by valid_card_tac.
  assert (H3 : valid_card "QS") by valid_card_tac.
  assert (Hs : simulate rnd_tie_then_wins ["AS"; "KS"] "QS" 10 = Ok (9, 1))
    by (vm_compute; reflexivity).
  split; [exact Hs|].
  apply (proj1 (simulate_extremes rnd_tie_then_wins "AS" "KS" "QS" 10 9 1
                  H1 H2 H3 ltac:(lia) Hs)).
  vm_compute. reflexivity.
Defined.

(** ** The two policies on every state *)

Lemma policy_bands category prob_win ev_fold ev_call ev_raise opp_fold_rate opp_raise_rate :
  (Bot.policy category prob_win ev_fold ev_call ev_raise opp_fold_rate opp_raise_rate
     = "RAISE" → 2 ≤ category)
  ∧ (Bot.policy category prob_win ev_fold ev_call ev_raise opp_fold_rate opp_raise_rate
     = "FOLD" → 0 ≤ category ≤ 3).
Proof.
  unfold Bot.policy.
  repeat case_bool_decide; repeat case_match; split; intros Heq; try discriminate Heq; lia.
Qed.

(** What [decide_action] returns, when it returns, is the decision tree on
    the category of the hand. *)
Lemma decide_action_returns rnd (state : State) (label : string) :
  Bot.decide_action rnd state = Ok label →
  ∃ hole table category prob_win ev_fold ev_call ev_raise opp_fold_rate opp_raise_rate,
    your_hole state = Some hole ∧ table_card state = Some table
    ∧ hand_category hole table = Ok category
    ∧ label = Bot.policy category prob_win ev_fold ev_call ev_raise
                opp_fold_rate opp_raise_rate.
Proof.
  unfold Bot.decide_action.
  destruct (your_hole state) as [hole|]; cbn [dict_getitem mbind result_bind]; [|done].
  destruct (table_card state) as [table|]; cbn [dict_getitem mbind result_bind]; [|done].
  destruct (Bot.opp_rates (opp_of_state state)) as [[[f r] cr]|]; cbn [mbind result_bind];
    [|done].
  destruct (hand_category hole table) as [k|] eqn:Hk; cbn [mbind result_bind]; [|done].
  destruct (monte_carlo_sim rnd hole table 10000) as [[[pw pt] pl]|];
    cbn [mbind result_bind]; [|done].
  destruct cr as [cr|]; cbn [load_local mbind result_bind]; [|done].
  intros [= <-]. eexists hole, table, k, _, _, _, _, _, _.
  split; [reflexivity|]. split; [reflexivity|]. split; [exact Hk|reflexivity].
Qed.

(** X14: the expected-value bot raises only on a flush or better and folds only
    on a straight or worse: when [decide_action] returns RAISE the hand has
    category 2 to 5, and when it returns FOLD the hand has category 0 to 3. *)
Theorem bot_decision_bands rnd (state : State) (hole : list string) (table : string) :
  your_hole state = Some hole → table_card state = Some table →
  (Bot.decide_action rnd state = Ok "RAISE" →
     ∃ k, hand_category hole table = Ok k ∧ 2 ≤ k ≤ 5)
  ∧ (Bot.decide_action rnd state = Ok "FOLD" →
     ∃ k, hand_category hole table = Ok k ∧ 0 ≤ k ≤ 3).
Proof.
  intros Hh Ht. split; intros Hd;
    apply decide_action_returns in Hd
      as (hole' & table' & k & pw & ef & ec & er & f & r & Hh' & Ht' & Hk & Hp);
    rewrite Hh in Hh'; rewrite Ht in Ht'; injection Hh' as <-; injection Ht' as <-;
    exists k; (split; [done|]);
    pose proof (hand_category_range _ _ _ Hk);
    symmetry in Hp.
  - apply policy_bands in Hp. lia.
  - apply policy_bands in Hp. lia.
Qed.

Lemma bot_decision_bands_witness :
  ∃ k, hand_category ["AS"; "KS"] "QS" = Ok k ∧ 2 ≤ k ≤ 5.
Proof.
  apply (proj1 (bot_decision_bands rnd_tie_then_wins state_straight_flush_one_fold
                  ["AS"; "KS"] "QS" eq_refl eq_refl)).
  vm_compute. reflexivity.
Defined.

Lemma decide_action_observed_opponent_witness :
  ∃ label,
    Bot.decide_action rnd_ties state_straight_flush_one_fold = Ok label
    ∧ label ∈ valid_labels.
Proof.
  apply (decide_action_observed_opponent rnd_ties state_straight_flush_one_fold 1).
  - exact state_straight_flush_one_fold_well_formed.
  - vm_compute. reflexivity.
  - lia.
Defined.

(** X16: the band-heuristic bot returns one of the three labels on every
    well-formed state, with or without observed opponent actions. *)
Theorem template_decides (state : State) :
  well_formed state →
  ∃ label, Template.decide_action state = Ok label ∧ label ∈ valid_labels.
Proof.
  intros Hwf.
  destruct (template_opp_rates_ok state Hwf) as (f & r & Hr).
  destruct Hwf as ((c1 & c2 & Hh & H1 & H2) & (t & Ht & Hvt) & _).
  unfold Template.decide_action. rewrite Hh, Ht. cbn [dict_getitem mbind result_bind].
  rewrite hand_category_three by done. cbn [mbind result_bind].
  rewrite Hr. cbn [mbind result_bind]. unfold valid_labels.
  repeat case_match; eexists; (split; [reflexivity|]);
    rewrite !elem_of_union, !elem_of_singleton; tauto.
Qed.

Lemma template_decides_witness :
  ∃ label,
    Template.decide_action state_straight_flush_no_stats = Ok label
    ∧ label ∈ valid_labels.
Proof.
  apply (template_decides state_straight_flush_no_stats).
  exact state_straight_flush_no_stats_well_formed.
Defined.

(** X17: the band-heuristic bot raises every straight or better, whatever the
    opponent statistics, and while no opponent action has been observed it
    calls everything else: it then neither folds nor raises a weaker hand. *)
Theorem template_strong_or_uninformed (state : State) (hole : list string)
    (table : string) (category : Z) :
  well_formed state →
  your_hole state = Some hole → table_card state = Some table →
  hand_category hole table = Ok category →
  (3 ≤ category → Template.decide_action state = Ok "RAISE")
  ∧ (total_opp_actions state = Some 0 → category < 3 →
     Template.decide_action state = Ok "CALL").
Proof.
  intros Hwf Hh Ht Hc.
  destruct (opp_of_state_well_formed state Hwf) as (f & c & r & Hf & Hcl & Hr & _).
  split.
  - intros Hcat. destruct (template_opp_rates_ok state Hwf) as (fr & rr & Hrates).
    unfold Template.decide_action. rewrite Hh, Ht. cbn [dict_getitem mbind result_bind].
    rewrite Hc. cbn [mbind result_bind]. rewrite Hrates. cbn [mbind result_bind].
    by rewrite (bool_decide_eq_true_2 (category >= 3)) by lia.
  - intros Htot Hcat. unfold total_opp_actions in Htot. rewrite Hf, Hcl, Hr in Htot.
    cbn in Htot. injection Htot as Htot.
    unfold Template.decide_action. rewrite Hh, Ht. cbn [dict_getitem mbind result_bind].
    rewrite Hc. cbn [mbind result_bind].
    unfold Template.opp_rates, stats_getitem. rewrite Hf, Hcl, Hr.
    cbn [dict_getitem mbind result_bind].
    rewrite (bool_decide_eq_true_2 (f + c + r = 0)) by done. cbn [mbind result_bind].
    rewrite (bool_decide_eq_false_2 (category >= 3)) by lia.
    change (Template.HIGH_RAISE_RATE <? 0)%float with false.
    change (Template.HIGH_FOLD_RATE <? 0)%float with false.
    by repeat case_bool_decide.
Qed.

Lemma template_strong_or_uninformed_witness :
  Template.decide_action state_straight_flush_no_stats = Ok "RAISE"
  ∧ Template.decide_action state_high_card_no_stats = Ok "CALL".
Proof.
  split.
  - apply (proj1 (template_strong_or_uninformed state_straight_flush_no_stats
                    ["AS"; "KS"] "QS" 5 state_straight_flush_no_stats_well_formed
                    eq_refl eq_refl ltac:(vm_compute; reflexivity))).
    lia.
  - assert (Hwf : well_formed state_high_card_no_stats).
    { split; [|split; [|split]].
      - exists "2C", "5D". split; [done|]. split; valid_card_tac.
      - exists "9H". split; [done|]. valid_card_tac.
      - intros d [=].
      - intros n [=]. }
    apply (proj2 (template_strong_or_uninformed state_high_card_no_stats
                    ["2C"; "5D"] "9H" 0 Hwf eq_refl eq_refl
                    ltac:(vm_compute; reflexivity))).
    + vm_compute. reflexivity.
    + lia.
Defined.

(** ** The glue around the two policies *)

(** X18: without a state [main] does not answer: on input that is empty once
    stripped, or that does not parse, the state is the empty dict, both
    strategies raise KeyError on [your_hole], and so does [main]; nothing is
    written. *)
Theorem main_without_state (strip : string → string)
    (json_loads : string → option State) (rnd : Rng) (stdin : string) :
  strip stdin = EmptyString ∨ json_loads (strip stdin) = None →
  read_state strip json_loads stdin = empty_state
  ∧ main strip json_loads (Bot.decide_action rnd) stdin = Raise (KeyError "your_hole")
  ∧ main strip json_loads Template.decide_action stdin = Raise (KeyError "your_hole").
Proof.
  intros Hin.
  assert (Hs : read_state strip json_loads stdin = empty_state).
  { unfold read_state. case_bool_decide; [done|].
    destruct Hin as [Hin|Hin]; [done|by rewrite Hin]. }
  split; [exact Hs|]. unfold main. rewrite Hs. split; reflexivity.
Qed.

Lemma main_without_state_witness :
  main (λ s, s) (λ _, None) (Bot.decide_action rnd_ties) "{your_hole" =
    Raise (KeyError "your_hole").
Proof.
  apply (main_without_state (λ s, s) (λ _, None) rnd_ties "{your_hole").
  right. reflexivity.
Defined.

Lemma template_decide_action_returns (state : State) (label : string) :
  Template.decide_action state = Ok label → label ∈ valid_labels.
Proof.
  unfold Template.decide_action, valid_labels.
  destruct (your_hole state) as [hole|]; cbn [dict_getitem mbind result_bind]; [|done].
  destruct (table_card state) as [table|]; cbn [dict_getitem mbind result_bind]; [|done].
  destruct (hand_category hole table) as [k|]; cbn [mbind result_bind]; [|done].
  destruct (Template.opp_rates (opp_of_state state)) as [[f r]|]; cbn [mbind result_bind];
    [|done].
  repeat case_match; intros [= <-]; rewrite !elem_of_union, !elem_of_singleton; tauto.
Qed.

(** X19: the safety check of [main] never changes the answer of either strategy:
    whatever the state, a label they return is written as it is, and an
    exception they raise leaves [main]. *)
Theorem main_keeps_decision (strip : string → string)
    (json_loads : string → option State) (rnd : Rng) (stdin : string) :
  main strip json_loads (Bot.decide_action rnd) stdin =
    match Bot.decide_action rnd (read_state strip json_loads stdin) with
    | Ok label => Ok {| action := label |}
    | Raise e => Raise e
    end
  ∧ main strip json_loads Template.decide_action stdin =
    match Template.decide_action (read_state strip json_loads stdin) with
    | Ok label => Ok {| action := label |}
    | Raise e => Raise e
    end.
Proof.
  unfold main. split.
  - destruct (Bot.decide_action rnd _) as [label|e] eqn:Hd; cbn [mbind result_bind]; [|done].
    apply decide_action_returns in Hd as (? & ? & ? & ? & ? & ? & ? & ? & ? & _ & _ & _ & ->).
    rewrite bool_decide_eq_false_2; [done|]. intros Hn. apply Hn, policy_label.
  - destruct (Template.decide_action _) as [label|e] eqn:Hd; cbn [mbind result_bind]; [|done].
    apply template_decide_action_returns in Hd.
    rewrite bool_decide_eq_false_2; [done|]. by intros Hn.
Qed.

(** ** The exceptions that can leave the strategies *)

Lemma parse_card_raises (c : string) (e : exn) :
  parse_card c = Raise e → card_error e.
Proof.
  unfold parse_card, str_getitem, rank_value_getitem, card_error.
  destruct (String.get 0 c) as [c0|]; cbn [mbind result_bind]; [|intros [= <-]; by left].
  destruct (RANK_VALUE !! c0); cbn [mbind result_bind]; [|intros [= <-]; eauto].
  destruct (String.get 1 c); cbn [mbind result_bind]; [done|intros [= <-]; by left].
Qed.

Lemma mapM_parse_raises (cards : list string) (e : exn) :
  mapM parse_card cards = Raise e → card_error e.
Proof.
  induction cards as [|c cards IH]; [done|]. rewrite mapM_result_cons.
  destruct (parse_card c) as [p|e'] eqn:Hc; cbn [mbind result_bind].
  - destruct (mapM parse_card cards) as [k|e'']; cbn [mbind result_bind]; [done|].
    intros [= <-]. by apply IH.
  - intros [= <-]. by eapply parse_card_raises.
Qed.

Lemma is_straight_3_raises (l : list Z) (e : exn) :
  is_straight_3 l = Raise e → e = IndexError.
Proof.
  unfold is_straight_3, getitem.
  destruct (sorted l) as [|r0 [|r1 [|r2 r]]]; cbn;
    repeat (match goal with
            | |- context [bool_decide ?P] => destruct (bool_decide P); cbn
            end);
    intros [=]; by subst.
Qed.

Lemma hand_category_raises hole table (e : exn) :
  hand_category hole table = Raise e → card_error e.
Proof.
  unfold hand_category.
  destruct (mapM parse_card (hole ++ [table])) as [parsed|e'] eqn:Hp;
    cbn [mbind result_bind].
  - destruct (is_straight_3 parsed.*1) as [[straight high]|e'] eqn:Hs;
      cbn [mbind result_bind].
    + repeat case_match; done.
    + intros [= <-]. left. by eapply is_straight_3_raises.
  - intros [= <-]. by eapply mapM_parse_raises.
Qed.

Lemma sample2_raises choice population (e : exn) :
  sample2 choice population = Raise e → e = ValueError.
Proof.
  destruct (Nat.ltb_spec (length population) 2) as [Hlen|Hlen].
  - unfold sample2. destruct (Nat.ltb_spec (length population) 2); [|lia].
    by intros [= <-].
  - destruct (sample2_ok choice population Hlen) as (x & y & -> & _). done.
Qed.

Lemma run_trials_raises rnd my_category pool table range acc (e : exn) :
  run_trials rnd my_category pool table range acc = Raise e →
  e = ValueError ∨ card_error e.
Proof.
  revert acc. induction range as [|k range IH]; intros [wins ties]; cbn [run_trials];
    [done|].
  unfold trial at 1.
  destruct (sample2 (rnd k) pool) as [opp_hole|e'] eqn:Hs; cbn [mbind result_bind].
  - destruct (hand_category opp_hole table) as [opp_category|e'] eqn:Hc;
      cbn [mbind result_bind].
    + repeat case_bool_decide; cbn [mbind result_bind]; apply IH.
    + intros [= <-]. right. by eapply hand_category_raises.
  - intros [= <-]. left. by eapply sample2_raises.
Qed.

(** Whatever the pool, the counters only grow, by at most one a trial. *)
Lemma run_trials_counts rnd my_category pool table range (wins ties wins' ties' : Z) :
  run_trials rnd my_category pool table range (wins, ties) = Ok (wins', ties') →
  wins ≤ wins' ∧ ties ≤ ties' ∧ wins' + ties' ≤ wins + ties + Z.of_nat (length range).
Proof.
  revert wins ties. induction range as [|k range IH]; intros wins ties; cbn [run_trials].
  - intros [= <- <-]. cbn [length]. lia.
  - unfold trial at 1.
    destruct (sample2 (rnd k) pool) as [opp_hole|e']; cbn [mbind result_bind]; [|done].
    destruct (hand_category opp_hole table) as [opp_category|e'];
      cbn [mbind result_bind]; [|done].
    repeat case_bool_decide; cbn [mbind result_bind]; intros Hr;
      apply IH in Hr; cbn [length]; lia.
Qed.

Lemma monte_carlo_sim_raises rnd hole table (n_simulations : Z) (e : exn) :
  monte_carlo_sim rnd hole table n_simulations = Raise e →
  e = ValueError ∨ card_error e ∨ (e = ZeroDivisionError ∧ n_simulations = 0).
Proof.
  unfold monte_carlo_sim, simulate.
  destruct (hand_category hole table) as [k|e'] eqn:Hk; cbn [mbind result_bind].
  - destruct (run_trials rnd k (available hole table) table
                (seq 0 (Z.to_nat n_simulations)) (0, 0)) as [[wins ties]|e'] eqn:Hr;
      cbn [mbind result_bind].
    + apply run_trials_counts in Hr. rewrite length_seq in Hr.
      destruct (Z.compare_spec n_simulations 0) as [->|Hneg|Hpos].
      * intros [= <-]. tauto.
      * replace wins with 0 by lia. replace ties with 0 by lia.
        rewrite int_truediv_zero_negative by lia. done.
      * rewrite (int_truediv_fraction wins) by lia. cbn [mbind result_bind].
        rewrite (int_truediv_fraction ties) by lia. done.
    + intros [= <-]. apply run_trials_raises in Hr. tauto.
  - intros [= <-]. right. left. by eapply hand_category_raises.
Qed.

Lemma stats_getitem_raises opp key (e : exn) :
  stats_getitem opp key = Raise e → e = KeyError key.
Proof. unfold stats_getitem. destruct (opp !! key); cbn; [done|by intros [= <-]]. Qed.

Lemma bot_opp_rates_raises opp (e : exn) :
  Bot.opp_rates opp = Raise e → (∃ key, e = KeyError key) ∨ e = OverflowError.
Proof.
  unfold Bot.opp_rates.
  destruct (stats_getitem _ "fold") as [f|] eqn:E1; cbn [mbind result_bind];
    [|intros [= <-]; apply stats_getitem_raises in E1; eauto].
  destruct (stats_getitem _ "call") as [c|] eqn:E2; cbn [mbind result_bind];
    [|intros [= <-]; apply stats_getitem_raises in E2; eauto].
  destruct (stats_getitem _ "raise") as [r|] eqn:E3; cbn [mbind result_bind];
    [|intros [= <-]; apply stats_getitem_raises in E3; eauto].
  case_bool_decide as Htot; [done|].
  destruct (int_truediv f (f + c + r)) as [x|e1] eqn:D1; cbn [mbind result_bind].
  - destruct (int_truediv r (f + c + r)) as [y|e2] eqn:D2; cbn [mbind result_bind];
      [done|]. intros [= <-]. apply int_truediv_raises in D2 as [[_ ?]|?]; [done|by right].
  - intros [= <-]. apply int_truediv_raises in D1 as [[_ ?]|?]; [done|by right].
Qed.

Lemma template_opp_rates_raises opp (e : exn) :
  Template.opp_rates opp = Raise e → (∃ key, e = KeyError key) ∨ e = OverflowError.
Proof.
  unfold Template.opp_rates.
  destruct (stats_getitem _ "fold") as [f|] eqn:E1; cbn [mbind result_bind];
    [|intros [= <-]; apply stats_getitem_raises in E1; eauto].
  destruct (stats_getitem _ "call") as [c|] eqn:E2; cbn [mbind result_bind];
    [|intros [= <-]; apply stats_getitem_raises in E2; eauto].
  destruct (stats_getitem _ "raise") as [r|] eqn:E3; cbn [mbind result_bind];
    [|intros [= <-]; apply stats_getitem_raises in E3; eauto].
  case_bool_decide as Htot; [done|].
  destruct (int_truediv f (f + c + r)) as [x|e1] eqn:D1; cbn [mbind result_bind].
  - destruct (int_truediv r (f + c + r)) as [y|e2] eqn:D2; cbn [mbind result_bind];
      [done|]. intros [= <-]. apply int_truediv_raises in D2 as [[_ ?]|?]; [done|by right].
  - intros [= <-]. apply int_truediv_raises in D1 as [[_ ?]|?]; [done|by right].
Qed.

(** X20: the exceptions of the two strategies, on any state at all. The
    expected-value bot raises nothing but KeyError (a missing key or an
    unknown rank symbol), IndexError (a token or a hand too short),
    ValueError (fewer than two cards left to draw), OverflowError (a rate of
    opponent actions too large for a float) and UnboundLocalError on
    [opp_call_rate]; the band-heuristic bot nothing but KeyError, IndexError
    and OverflowError. Neither ever raises ZeroDivisionError: they divide by
    the number of opponent actions only when it is not zero, and the
    simulator by 10000. *)
Theorem decide_action_exceptions :
  (∀ rnd (state : State) (e : exn),
     Bot.decide_action rnd state = Raise e →
     card_error e ∨ e = ValueError ∨ e = OverflowError
     ∨ e = UnboundLocalError "opp_call_rate")
  ∧ (∀ (state : State) (e : exn),
     Template.decide_action state = Raise e → card_error e ∨ e = OverflowError).
Proof.
  split.
  - intros rnd state e. unfold Bot.decide_action.
    destruct (your_hole state) as [hole|]; cbn [dict_getitem mbind result_bind];
      [|intros [= <-]; left; right; eauto].
    destruct (table_card state) as [table|]; cbn [dict_getitem mbind result_bind];
      [|intros [= <-]; left; right; eauto].
    destruct (Bot.opp_rates (opp_of_state state)) as [[[f r] cr]|e'] eqn:Hr;
      cbn [mbind result_bind].
    + destruct (hand_category hole table) as [k|e'] eqn:Hk; cbn [mbind result_bind];
        [|intros [= <-]; left; by eapply hand_category_raises].
      destruct (monte_carlo_sim rnd hole table 10000) as [[[pw pt] pl]|e'] eqn:Hm;
        cbn [mbind result_bind].
      * destruct cr; cbn [load_local mbind result_bind]; [done|]. intros [= <-]. tauto.
      * intros [= <-]. apply monte_carlo_sim_raises in Hm as [?|[?|[_ ?]]]; [tauto|tauto|done].
    + intros [= <-]. apply bot_opp_rates_raises in Hr as [?|?]; [left; by right|tauto].
  - intros state e. unfold Template.decide_action.
    destruct (your_hole state) as [hole|]; cbn [dict_getitem mbind result_bind];
      [|intros [= <-]; left; right; eauto].
    destruct (table_card state) as [table|]; cbn [dict_getitem mbind result_bind];
      [|intros [= <-]; left; right; eauto].
    destruct (hand_category hole table) as [k|e'] eqn:Hk; cbn [mbind result_bind];
      [|intros [= <-]; left; by eapply hand_category_raises].
    destruct (Template.opp_rates (opp_of_state state)) as [[f r]|e'] eqn:Hr;
      cbn [mbind result_bind].
    + repeat case_match; done.
    + intros [= <-]. apply template_opp_rates_raises in Hr as [?|?]; [left; by right|tauto].
Qed.

(** Each of them is raised on some state. *)
Example decide_action_exceptions_reached :
  Bot.decide_action rnd_ties state_unknown_rank = Raise (KeyError "1")
  ∧ Bot.decide_action rnd_ties empty_state = Raise (KeyError "your_hole")
  ∧ Bot.decide_action rnd_ties state_no_hole_card = Raise IndexError
  ∧ Bot.decide_action rnd_ties state_fifty_hole_cards = Raise ValueError
  ∧ Bot.decide_action rnd_ties state_huge_fold_count = Raise OverflowError
  ∧ Template.decide_action state_unknown_rank = Raise (KeyError "1")
  ∧ Template.decide_action state_no_hole_card = Raise IndexError
  ∧ Template.decide_action state_huge_fold_count = Raise OverflowError.
Proof. repeat split; vm_compute; reflexivity. Qed.

Lemma decide_action_exceptions_witness :
  card_error (KeyError "1") ∨ KeyError "1" = ValueError
  ∨ KeyError "1" = OverflowError
  ∨ KeyError "1" = UnboundLocalError "opp_call_rate".
Proof.
  apply (proj1 decide_action_exceptions rnd_ties state_unknown_rank (KeyError "1")).
  vm_compute. reflexivity.
Defined.
